(** * Trip tracker: credential, expense and settings stores

    A shallow embedding of [services/auth.py], [services/data_manager.py]
    and [services/settings_manager.py].  Each SQLite table is a value that
    the operations take and return; a Python exception is a [Raise] result
    next to the table as the rolled-back transaction leaves it.

    Conventions of the embedding:
    - a Python [str] is a [string] holding its UTF-8 bytes, so that
      equality and the BINARY collation of SQLite are those of [string];
      [str.strip] and [str.lower], which are Python's own and know all of
      Unicode, are parameters of the modules that call them;
    - an amount is the rational number that the caller's [float] is worth;
      the doubles that SQLite adds up are IEEE binary64 numbers
      ([spec_float], with the additions of [SFadd]);
    - the clock ([datetime('now')], [datetime.utcnow()]) is an argument. *)

From Stdlib Require Import String Ascii List Bool ZArith QArith Lia ZifyNat.
From Stdlib Require Import SpecFloat.
From Stdlib Require Import Permutation Sorted.
From stdpp Require Import gmap strings.
Import ListNotations.

Local Open Scope string_scope.
Local Open Scope list_scope.

(** ** Python values shared by the three modules *)

Inductive exn : Type :=
| ValueError (msg : string)
| TypeError (msg : string).

Inductive result (A : Type) : Type :=
| Ok (a : A)
| Raise (e : exn).

Arguments Ok {A} a.
Arguments Raise {A} e.

Module Py.

(** Truthiness of a [str]: [not s] holds for the empty string only. *)
Definition not_str (s : string) : bool :=
  match s with EmptyString => true | _ => false end.

(** *** [str.strip] and [str.lower] on ASCII text

    The two methods themselves are parameters of the modules below.
    [ascii_strip] and [ascii_lower] are what they do on a text of ASCII
    characters only; they serve to run the model on such texts. *)

(** [str.isspace] on one ASCII character: TAB..CR, FS..US and space. *)
Definition is_ascii_space (c : ascii) : bool :=
  let n := N_of_ascii c in
  ((9 <=? n)%N && (n <=? 13)%N) || ((28 <=? n)%N && (n <=? 32)%N).

Fixpoint ascii_lstrip (s : string) : string :=
  match s with
  | EmptyString => EmptyString
  | String c s' => if is_ascii_space c then ascii_lstrip s' else s
  end.

Fixpoint ascii_rstrip (s : string) : string :=
  match s with
  | EmptyString => EmptyString
  | String c s' =>
      match ascii_rstrip s' with
      | EmptyString =>
          if is_ascii_space c then EmptyString else String c EmptyString
      | r => String c r
      end
  end.

Definition ascii_strip (s : string) : string := ascii_rstrip (ascii_lstrip s).

Definition ascii_lower_char (c : ascii) : ascii :=
  let n := N_of_ascii c in
  if ((65 <=? n)%N && (n <=? 90)%N)%bool then ascii_of_N (n + 32) else c.

Fixpoint ascii_lower (s : string) : string :=
  match s with
  | EmptyString => EmptyString
  | String c s' => String (ascii_lower_char c) (ascii_lower s')
  end.

(** A string that [ascii_lstrip] leaves alone: empty, or led by a
    character that is not whitespace. *)
Definition no_lead (s : string) : Prop :=
  match s with
  | EmptyString => True
  | String c _ => is_ascii_space c = false
  end.

End Py.

(** ** services/auth.py *)

Module Auth.

Record user_row : Type := mk_user {
  id : Z;
  email : string;
  password_hash : string;
  created_at : string
}.

(** The [users] table: its rows in rowid order and the AUTOINCREMENT
    counter kept in [sqlite_sequence]. *)
Record users_table : Type := mk_users {
  rows : list user_row;
  seq : Z
}.

(** [init_db] on a fresh file. *)
Definition init_db : users_table := mk_users [] 0.

Definition email_is (e : string) (r : user_row) : bool :=
  String.eqb (email r) e.

(** [SELECT password_hash FROM users WHERE email = ?] and [fetchone]. *)
Definition select_password_hash (e : string) (db : users_table)
  : option string :=
  option_map password_hash (List.find (email_is e) (rows db)).

(** [INSERT INTO users (email, password_hash) VALUES (?, ?)]; [None] is
    the [sqlite3.IntegrityError] of the UNIQUE constraint on [email]. *)
Definition insert_user (now e h : string) (db : users_table)
  : option users_table :=
  if existsb (email_is e) (rows db) then None
  else Some (mk_users (rows db ++ [mk_user (seq db + 1) e h now])
                      (seq db + 1)).

(** [SELECT email FROM users ORDER BY id]. *)
Definition list_users (db : users_table) : list string :=
  map email (rows db).

Definition msg_required : string := "E‑mail e senha são obrigatórios.".
Definition msg_duplicate : string := "E‑mail já cadastrado.".

Section WithHash.

(** [str.strip()] and [str.lower()], as Python has them. *)
Variable strip : string -> string.
Variable lower : string -> string.

(** [hashlib.sha256(b).hexdigest()] on the encoded text, and the value
    of [_SALT] read from the environment at import time. *)
Variable sha256_hexdigest : string -> string.
Variable _SALT : string.

Definition _hash (pwd : string) : string :=
  sha256_hexdigest (pwd ++ _SALT).

Definition create_user (now email password : string) (db : users_table)
  : users_table * result unit :=
  let email := lower (strip email) in
  if Py.not_str email || Py.not_str password then
    (db, Raise (ValueError msg_required))
  else
    match insert_user now email (_hash password) db with
    | Some db' => (db', Ok tt)
    | None => (db, Raise (ValueError msg_duplicate))
    end.

Definition verify_user (email password : string) (db : users_table)
  : bool :=
  let email := lower (strip email) in
  if Py.not_str email || Py.not_str password then false
  else
    match select_password_hash email db with
    | None => false
    | Some h => String.eqb h (_hash password)
    end.

(** The stores that further registrations (accepted or refused) can
    lead to. *)
Inductive later (db : users_table) : users_table -> Prop :=
| later_refl : later db db
| later_step db1 now e p :
    later db db1 -> later db (fst (create_user now e p db1)).

End WithHash.

End Auth.

(** ** services/data_manager.py *)

Module DataManager.

(** [datetime.date]: Python keeps [1 <= year <= 9999], so [isoformat]
    always has the shape YYYY-MM-DD. *)
Record date_type : Type := mk_date {
  year : nat;
  month : nat;
  day : nat
}.

Definition digit (n : nat) : ascii := ascii_of_nat (48 + n mod 10).

Definition pad2 (n : nat) : string :=
  String (digit (n / 10)) (String (digit n) EmptyString).

Definition pad4 (n : nat) : string :=
  String (digit (n / 1000)) (String (digit (n / 100)) (pad2 n)).

(** [date.isoformat()]. *)
Definition isoformat (d : date_type) : string :=
  pad4 (year d) ++ "-" ++ pad2 (month d) ++ "-" ++ pad2 (day d).

(** What the [date], [start_date] and [end_date] parameters accept. *)
Inductive date_arg : Type :=
| PyDatetime (d : date_type) (hour minute second microsecond : nat)
| PyDate (d : date_type)
| PyStr (s : string).

(** The two [isinstance] steps that open [add_expense], [list_expenses]
    and [total_spent]: a [datetime] is cut to its date, a date is
    written in ISO form, a string is kept as it is. *)
Definition to_iso (d : date_arg) : string :=
  match d with
  | PyDatetime d _ _ _ _ => isoformat d
  | PyDate d => isoformat d
  | PyStr s => s
  end.

Record expense : Type := mk_expense {
  id : Z;
  user_id : string;
  date : string;
  amount : Q;
  currency : string;
  category : string;
  description : string;
  account : string;
  receipt_path : option string;
  created_at : string;
  updated_at : string
}.

(** The [expenses] table: rows in rowid order and the AUTOINCREMENT
    counter, which never goes back when rows are deleted. *)
Record expenses_table : Type := mk_expenses {
  rows : list expense;
  seq : Z
}.

Definition init_db : expenses_table := mk_expenses [] 0.

Definition add_expense (now user_id : string) (date : date_arg) (amount : Q)
    (category description account : string) (receipt_path : option string)
    (currency : string) (db : expenses_table) : expenses_table * Z :=
  let date := to_iso date in
  let lastrowid := (seq db + 1)%Z in
  (mk_expenses
     (rows db ++ [mk_expense lastrowid user_id date amount currency category
                    description account receipt_path now now])
     lastrowid,
   lastrowid).

(** Comparison of TEXT cells (BINARY collation): [a <= b]. *)
Definition text_le (a b : string) : bool :=
  match String.compare a b with Gt => false | _ => true end.

(** The WHERE clause that [list_expenses] assembles. *)
Definition matches (user : string) (start_date end_date : option date_arg)
    (cat acc : option string) (r : expense) : bool :=
  String.eqb (user_id r) user
  && match start_date with
     | Some d => text_le (to_iso d) (date r)
     | None => true
     end
  && match end_date with
     | Some d => text_le (date r) (to_iso d)
     | None => true
     end
  && match cat with
     | Some c => String.eqb (category r) c
     | None => true
     end
  && match acc with
     | Some a => String.eqb (account r) a
     | None => true
     end.

(** [ORDER BY date DESC, id DESC]: [r1] may stand before [r2]. *)
Definition precedes (r1 r2 : expense) : bool :=
  match String.compare (date r2) (date r1) with
  | Lt => true
  | Eq => (id r2 <=? id r1)%Z
  | Gt => false
  end.

Fixpoint insert_row (r : expense) (l : list expense) : list expense :=
  match l with
  | [] => [r]
  | x :: l' => if precedes r x then r :: l else x :: insert_row r l'
  end.

Definition order_by (l : list expense) : list expense :=
  fold_right insert_row [] l.

(** The rows are the same with [as_dataframe] set or not; the embedding
    returns them as a list. *)
Definition list_expenses (user : string) (start_date end_date : option date_arg)
    (cat acc : option string) (db : expenses_table) : list expense :=
  order_by (List.filter (matches user start_date end_date cat acc) (rows db)).

Definition delete_expense (expense_id : Z) (user : string)
    (db : expenses_table) : expenses_table :=
  mk_expenses
    (List.filter
       (fun r => negb ((id r =? expense_id)%Z && String.eqb (user_id r) user))
       (rows db))
    (seq db).

(** *** The patch of [update_expense] *)

Definition allowed : list string :=
  ["date"; "amount"; "currency"; "category"; "description"; "account";
   "receipt_path"].

Inductive column : Type :=
| Date | Amount | Currency | Category | Description | Account | ReceiptPath.

Definition column_of (k : string) : option column :=
  if String.eqb k "date" then Some Date
  else if String.eqb k "amount" then Some Amount
  else if String.eqb k "currency" then Some Currency
  else if String.eqb k "category" then Some Category
  else if String.eqb k "description" then Some Description
  else if String.eqb k "account" then Some Account
  else if String.eqb k "receipt_path" then Some ReceiptPath
  else None.

(** A Python value given under a key that names no column. *)
Inductive value : Type :=
| VNone
| VFloat (q : Q)
| VStr (s : string).

(** A keyword argument carries a value of the type [add_expense] declares
    for the column it names; values of other Python types would go
    through SQLite's affinity conversions, which are not modelled. *)
Definition column_type (c : column) : Type :=
  match c with
  | Amount => Q
  | ReceiptPath => option string
  | _ => string
  end.

Definition kwarg_type (k : string) : Type :=
  match column_of k with
  | Some c => column_type c
  | None => value
  end.

(** One keyword argument of a call of [update_expense] besides
    [expense_id=] and [user_id=]: written out, or an item of a dict
    unpacked into the call.  The list keeps the order of the call, and
    Python keeps the keys distinct. *)
Definition kwarg : Type := { k : string & kwarg_type k }.

Definition kw (k : string) (v : kwarg_type k) : kwarg :=
  @existT string kwarg_type k v.

Definition key (f : kwarg) : string := projT1 f.

Definition set_updated_at (now : string) (r : expense) : expense :=
  mk_expense (id r) (user_id r) (date r) (amount r) (currency r) (category r)
    (description r) (account r) (receipt_path r) (created_at r) now.

Definition set_column (c : column) : column_type c -> expense -> expense :=
  match c as c0 return column_type c0 -> expense -> expense with
  | Date => fun v r =>
      mk_expense (id r) (user_id r) v (amount r) (currency r) (category r)
        (description r) (account r) (receipt_path r) (created_at r) (updated_at r)
  | Amount => fun v r =>
      mk_expense (id r) (user_id r) (date r) v (currency r) (category r)
        (description r) (account r) (receipt_path r) (created_at r) (updated_at r)
  | Currency => fun v r =>
      mk_expense (id r) (user_id r) (date r) (amount r) v (category r)
        (description r) (account r) (receipt_path r) (created_at r) (updated_at r)
  | Category => fun v r =>
      mk_expense (id r) (user_id r) (date r) (amount r) (currency r) v
        (description r) (account r) (receipt_path r) (created_at r) (updated_at r)
  | Description => fun v r =>
      mk_expense (id r) (user_id r) (date r) (amount r) (currency r) (category r)
        v (account r) (receipt_path r) (created_at r) (updated_at r)
  | Account => fun v r =>
      mk_expense (id r) (user_id r) (date r) (amount r) (currency r) (category r)
        (description r) v (receipt_path r) (created_at r) (updated_at r)
  | ReceiptPath => fun v r =>
      mk_expense (id r) (user_id r) (date r) (amount r) (currency r) (category r)
        (description r) (account r) v (created_at r) (updated_at r)
  end.

(** One [k = ?] of the SET list. *)
Definition assign (f : kwarg) (r : expense) : expense :=
  match f with
  | existT k v =>
      match column_of k as o
            return match o with Some c => column_type c | None => value end
                   -> expense with
      | Some c => fun v => set_column c v r
      | None => fun _ => r
      end v
  end.

Definition join_comma (l : list string) : string :=
  String.concat ", " l.

(** The names of the two parameters of [update_expense].  A keyword
    argument that repeats one of them (it can only come from an unpacked
    dict) never reaches [fields]: Python refuses the call with a
    [TypeError] when it binds the arguments, naming the first one it
    meets. *)
Definition parameters : list string := ["expense_id"; "user_id"].

Definition bound_twice (fields : list kwarg) : option string :=
  List.find (fun k => existsb (String.eqb k) parameters) (map key fields).

(** The text of that [TypeError], as CPython 3.11 words it. *)
Definition msg_multiple_values (k : string) : string :=
  "services.data_manager.update_expense() got multiple values for keyword argument '"
  ++ k ++ "'".

(** [set(fields) - allowed], a set: the order in which [join] meets its
    elements is the set's own, not that of the call. *)
Definition unknown_fields (fields : list kwarg) : gset string :=
  list_to_set (map key fields) ∖ list_to_set allowed.

(** [UPDATE expenses SET ..., updated_at = ? WHERE id = ? AND user_id = ?]. *)
Definition exec_update (now : string) (expense_id : Z) (user : string)
    (fields : list kwarg) (db : expenses_table) : expenses_table :=
  mk_expenses
    (map (fun r =>
            if (id r =? expense_id)%Z && String.eqb (user_id r) user
            then set_updated_at now (fold_left (fun r f => assign f r) fields r)
            else r)
       (rows db))
    (seq db).

Definition update_expense (now : string) (expense_id : Z) (user : string)
    (fields : list kwarg) (db : expenses_table)
  : expenses_table * result unit :=
  match bound_twice fields with
  | Some k => (db, Raise (TypeError (msg_multiple_values k)))
  | None =>
      match fields with
      | [] => (db, Ok tt)
      | _ :: _ =>
          let unknown := unknown_fields fields in
          if decide (unknown = ∅) then
            (exec_update now expense_id user fields db, Ok tt)
          else
            (db, Raise (ValueError ("Unknown field(s): "
                                    ++ join_comma (elements unknown))))
      end
  end.

(** *** Doubles

    A REAL cell holds an IEEE binary64 number, and [SUM] adds such
    numbers, rounding each partial sum. *)

Definition double_add : spec_float -> spec_float -> spec_float :=
  SFadd 53 1024.

Definition double_zero : spec_float := S754_zero false.

Definition double_of_Z (z : Z) : spec_float :=
  binary_normalize 53 1024 z 0 false.

(** The double that the cell holds for an amount: the amount itself when
    it is a double, and the double nearest to it, as [float] gives it,
    when it is written as a fraction of two integers below 2^53. *)
Definition double_of (q : Q) : spec_float :=
  let q := Qred q in
  SFdiv 53 1024 (double_of_Z (Qnum q)) (double_of_Z (Zpos (Qden q))).


(** The doubles of a list added one after the other, from 0.0. *)
Definition double_sum (l : list Q) : spec_float :=
  fold_left double_add (map double_of l) double_zero.

(** [SUM(amount)]: NULL over no row, else the cells added in the order of
    the rows. *)
Definition sql_sum (l : list Q) : option spec_float :=
  match l with
  | [] => None
  | _ :: _ => Some (double_sum l)
  end.

Definition coalesce (o : option spec_float) (d : spec_float) : spec_float :=
  match o with Some x => x | None => d end.

Definition total_spent (user : string) (start_date end_date : option date_arg)
    (db : expenses_table) : spec_float :=
  coalesce
    (sql_sum (map amount
                (List.filter (matches user start_date end_date None None)
                   (rows db))))
    double_zero.



(** Sequences of calls on the store, for statements about every state the
    API can reach. *)
Inductive op : Type :=
| OpAdd (now user : string) (date : date_arg) (amount : Q)
    (category description account : string) (receipt_path : option string)
    (currency : string)
| OpUpdate (now : string) (expense_id : Z) (user : string) (fields : list kwarg)
| OpDelete (expense_id : Z) (user : string).

Definition step (db : expenses_table) (o : op) : expenses_table :=
  match o with
  | OpAdd now u d a c de ac rp cu => fst (add_expense now u d a c de ac rp cu db)
  | OpUpdate now i u fs => fst (update_expense now i u fs db)
  | OpDelete i u => delete_expense i u db
  end.

Definition run (ops : list op) : expenses_table := fold_left step ops init_db.

(** The order that [ORDER BY date DESC, id DESC] asks of a row [r1] listed
    before a row [r2]: a later date, or the same date and an id at least as
    large. *)
Definition date_id_desc (r1 r2 : expense) : Prop :=
  String.compare (date r2) (date r1) = Lt
  \/ (date r1 = date r2 /\ (id r2 <= id r1)%Z).

(** The same with ids that differ: on one date, the larger id first. *)
Definition date_id_desc_strict (r1 r2 : expense) : Prop :=
  String.compare (date r2) (date r1) = Lt
  \/ (date r1 = date r2 /\ (id r2 < id r1)%Z).

(** What AUTOINCREMENT keeps: ids are distinct and none is above the
    counter. *)
Definition ids_ok (db : expenses_table) : Prop :=
  List.NoDup (map id (rows db))
  /\ List.Forall (fun r => (id r <= seq db)%Z) (rows db).

(** A call that hands the store no negative amount. *)
Definition column_nonneg (c : column) : column_type c -> Prop :=
  match c as c0 return column_type c0 -> Prop with
  | Amount => fun q => (0 <= q)%Q
  | _ => fun _ => True
  end.

Definition kwarg_nonneg (f : kwarg) : Prop :=
  match f with
  | existT k v =>
      match column_of k as o
            return match o with Some c => column_type c | None => value end
                   -> Prop with
      | Some c => fun v => column_nonneg c v
      | None => fun _ => True
      end v
  end.

Definition op_nonneg (o : op) : Prop :=
  match o with
  | OpAdd _ _ _ a _ _ _ _ _ => (0 <= a)%Q
  | OpUpdate _ _ _ fs => Forall kwarg_nonneg fs
  | OpDelete _ _ => True
  end.

End DataManager.

(** ** services/settings_manager.py *)

Module SettingsManager.

Definition DEFAULT_CATEGORIES : list string :=
  ["Alimentação"; "Transporte"; "Hospedagem"; "Lazer"; "Compras"; "Outros"].

Definition DEFAULT_ACCOUNTS : list string := [].

(** The dict that [get_settings] returns. *)
Record settings : Type := mk_settings {
  categories : list string;
  accounts : list string;
  monthly_budget : option Q
}.

(** [x in l] on a list of [str]. *)
Definition py_in (x : string) (l : list string) : bool :=
  existsb (String.eqb x) l.

(** [l.remove(x)] when [x in l]: the first equal element goes. *)
Fixpoint list_remove (x : string) (l : list string) : list string :=
  match l with
  | [] => []
  | y :: l' => if String.eqb y x then l' else y :: list_remove x l'
  end.

(** The two columns that [_update_field] is called on. *)
Inductive field : Type :=
| FCategories
| FAccounts.

Section WithJson.

(** The text of a JSON array of strings, with [json.dumps] and
    [json.loads] on it. *)
Variable json : Type.
Variable json_dumps : list string -> json.
Variable json_loads : json -> list string.

(** [str.strip()], as Python has it. *)
Variable strip : string -> string.

(** A row of [user_settings]; the table maps the primary key [user_id]
    to the other columns. *)
Record settings_row : Type := mk_row {
  row_categories : json;
  row_accounts : json;
  row_monthly_budget : option Q
}.

Definition init_db : gmap string settings_row := ∅.

(** [INSERT OR IGNORE INTO user_settings ...]. *)
Definition _ensure_row (user_id : string) (db : gmap string settings_row)
  : gmap string settings_row :=
  match db !! user_id with
  | Some _ => db
  | None =>
      <[user_id := mk_row (json_dumps DEFAULT_CATEGORIES)
                     (json_dumps DEFAULT_ACCOUNTS) None]> db
  end.

(** [fetchone] gives [None] when no row matches, and subscripting it
    raises. *)
Definition get_settings (user_id : string) (db : gmap string settings_row)
  : gmap string settings_row * result settings :=
  let db := _ensure_row user_id db in
  match db !! user_id with
  | Some row =>
      (db, Ok (mk_settings (json_loads (row_categories row))
                 (json_loads (row_accounts row))
                 (row_monthly_budget row)))
  | None => (db, Raise (TypeError "'NoneType' object is not subscriptable"))
  end.

Definition set_field (f : field) (v : json) (row : settings_row)
  : settings_row :=
  match f with
  | FCategories => mk_row v (row_accounts row) (row_monthly_budget row)
  | FAccounts => mk_row (row_categories row) v (row_monthly_budget row)
  end.

(** [UPDATE user_settings SET {field} = ? WHERE user_id = ?]. *)
Definition _update_field (user_id : string) (f : field) (v : list string)
    (db : gmap string settings_row) : gmap string settings_row :=
  alter (set_field f (json_dumps v)) user_id db.

Definition add_category (user_id category : string)
    (db : gmap string settings_row)
  : gmap string settings_row * result unit :=
  let category := strip category in
  if Py.not_str category then (db, Ok tt)
  else
    match get_settings user_id db with
    | (db, Raise e) => (db, Raise e)
    | (db, Ok s) =>
        if py_in category (categories s) then (db, Ok tt)
        else (_update_field user_id FCategories
                (categories s ++ [category]) db, Ok tt)
    end.

Definition remove_category (user_id category : string)
    (db : gmap string settings_row)
  : gmap string settings_row * result unit :=
  match get_settings user_id db with
  | (db, Raise e) => (db, Raise e)
  | (db, Ok s) =>
      if py_in category (categories s) then
        (_update_field user_id FCategories
           (list_remove category (categories s)) db, Ok tt)
      else (db, Ok tt)
  end.

Definition add_account (user_id account : string)
    (db : gmap string settings_row)
  : gmap string settings_row * result unit :=
  let account := strip account in
  if Py.not_str account then (db, Ok tt)
  else
    match get_settings user_id db with
    | (db, Raise e) => (db, Raise e)
    | (db, Ok s) =>
        if py_in account (accounts s) then (db, Ok tt)
        else (_update_field user_id FAccounts
                (accounts s ++ [account]) db, Ok tt)
    end.

Definition remove_account (user_id account : string)
    (db : gmap string settings_row)
  : gmap string settings_row * result unit :=
  match get_settings user_id db with
  | (db, Raise e) => (db, Raise e)
  | (db, Ok s) =>
      if py_in account (accounts s) then
        (_update_field user_id FAccounts
           (list_remove account (accounts s)) db, Ok tt)
      else (db, Ok tt)
  end.

(** [UPDATE user_settings SET monthly_budget = ? WHERE user_id = ?]. *)
Definition set_monthly_budget (user_id : string) (budget : option Q)
    (db : gmap string settings_row) : gmap string settings_row :=
  alter (fun row => mk_row (row_categories row) (row_accounts row) budget)
    user_id db.

Definition get_categories (user_id : string) (db : gmap string settings_row)
  : gmap string settings_row * result (list string) :=
  match get_settings user_id db with
  | (db, Ok s) => (db, Ok (categories s))
  | (db, Raise e) => (db, Raise e)
  end.

Definition get_accounts (user_id : string) (db : gmap string settings_row)
  : gmap string settings_row * result (list string) :=
  match get_settings user_id db with
  | (db, Ok s) => (db, Ok (accounts s))
  | (db, Raise e) => (db, Raise e)
  end.

Definition get_monthly_budget (user_id : string)
    (db : gmap string settings_row)
  : gmap string settings_row * result (option Q) :=
  match get_settings user_id db with
  | (db, Ok s) => (db, Ok (monthly_budget s))
  | (db, Raise e) => (db, Raise e)
  end.

(** Calls on the settings store, and the stores they reach from an
    empty table. *)
Inductive op : Type :=
| OpGet (user_id : string)
| OpAddCategory (user_id name : string)
| OpRemoveCategory (user_id name : string)
| OpAddAccount (user_id name : string)
| OpRemoveAccount (user_id name : string)
| OpSetBudget (user_id : string) (budget : option Q).

Definition step (db : gmap string settings_row) (o : op)
  : gmap string settings_row :=
  match o with
  | OpGet u => fst (get_settings u db)
  | OpAddCategory u n => fst (add_category u n db)
  | OpRemoveCategory u n => fst (remove_category u n db)
  | OpAddAccount u n => fst (add_account u n db)
  | OpRemoveAccount u n => fst (remove_account u n db)
  | OpSetBudget u b => set_monthly_budget u b db
  end.

Definition run (ops : list op) : gmap string settings_row :=
  fold_left step ops init_db.

(** The lists held for a user ([[]] when the user has no row). *)
Definition stored_categories (user_id : string)
    (db : gmap string settings_row) : list string :=
  match db !! user_id with
  | Some row => json_loads (row_categories row)
  | None => []
  end.

Definition stored_accounts (user_id : string)
    (db : gmap string settings_row) : list string :=
  match db !! user_id with
  | Some row => json_loads (row_accounts row)
  | None => []
  end.

(** What every list written by this module satisfies: names are stripped
    and no name occurs twice. *)
Definition names_ok (l : list string) : Prop :=
  List.Forall (fun n => strip n = n) l /\ List.NoDup l.

Definition row_ok (row : settings_row) : Prop :=
  names_ok (json_loads (row_categories row))
  /\ names_ok (json_loads (row_accounts row)).

Definition db_ok (db : gmap string settings_row) : Prop :=
  forall (u : string) (row : settings_row), db !! u = Some row -> row_ok row.

End WithJson.

End SettingsManager.

(** ** The patch of [update_expense], column by column *)

Module Patch.
Import DataManager.

Definition column_name (c : column) : string :=
  match c with
  | Date => "date"
  | Amount => "amount"
  | Currency => "currency"
  | Category => "category"
  | Description => "description"
  | Account => "account"
  | ReceiptPath => "receipt_path"
  end.



(** The row that [WHERE id = ? AND user_id = ?] selects. *)
Definition targets (expense_id : Z) (user : string) (r : expense) : bool :=
  (id r =? expense_id)%Z && String.eqb (user_id r) user.

(** The user a call acts for. *)
Definition op_user (o : op) : string :=
  match o with
  | OpAdd _ u _ _ _ _ _ _ _ => u
  | OpUpdate _ _ u _ => u
  | OpDelete _ u => u
  end.

(** Chronological order of two dates: [d1] is not after [d2]. *)
Definition date_le (d1 d2 : date_type) : Prop :=
  (year d1 < year d2)%nat
  \/ (year d1 = year d2
      /\ ((month d1 < month d2)%nat
          \/ (month d1 = month d2 /\ (day d1 <= day d2)%nat))).

(** The fields a [datetime.date] can hold, as far as [isoformat] needs
    them: four digits of year, two of month and of day. *)
Definition date_fits (d : date_type) : Prop :=
  (year d < 100 * 100)%nat /\ (month d < 100)%nat /\ (day d < 100)%nat.

End Patch.

(** ** Login.py *)

Module Login.

(** What the page shows after a click: [st.success], [st.error], or an
    exception that no handler of the page catches. *)
Inductive feedback : Type :=
| Success (msg : string)
| Error (msg : string)
| Uncaught (e : exn).

Section WithHash.

Variable strip : string -> string.
Variable lower : string -> string.
Variable sha256_hexdigest : string -> string.
Variable _SALT : string.

(** The e-mails of a table: distinct, not empty, and each the normal form
    [strip().lower()] of some text. *)
Definition emails_ok (db : Auth.users_table) : Prop :=
  List.NoDup (Auth.list_users db)
  /\ List.Forall (fun e => e <> "" /\ exists x, e = lower (strip x))
       (Auth.list_users db).

(** The "Entrar" button; [session] is [st.session_state.get("user_id")]. *)
Definition login_click (login_email login_password : string)
    (db : Auth.users_table) (session : option string)
  : option string * feedback :=
  if Auth.verify_user strip lower sha256_hexdigest _SALT login_email
       login_password db
  then (Some (lower (strip login_email)),
        Success "Login realizado com sucesso! Redirecionando…")
  else (session, Error "Credenciais inválidas.").

(** The "Cadastrar" button. *)
Definition register_click (now reg_email reg_password reg_password2 : string)
    (db : Auth.users_table) : Auth.users_table * feedback :=
  if negb (String.eqb reg_password reg_password2)
  then (db, Error "As senhas não coincidem.")
  else
    match Auth.create_user strip lower sha256_hexdigest _SALT now reg_email
            reg_password db with
    | (db', Ok _) => (db', Success "Conta criada! Faça login na aba ao lado.")
    | (db', Raise (ValueError msg)) => (db', Error msg)
    | (db', Raise e) => (db', Uncaught e)
    end.

End WithHash.

(** The "Sair" button: [st.session_state.pop("user_id", None)]. *)
Definition logout_click (session : option string) : option string := None.

End Login.

(** ** pages/3_Configuracoes.py *)

Module Configuracoes.

Section EditableList.

(** [editable_list] is written once for both lists; it gets the store's
    operations as [add_callback] and [remove_callback]. *)
Variable store : Type.
Variable add_callback : string -> string -> store -> store * result unit.
Variable remove_callback : string -> string -> store -> store * result unit.

(** The "+" button: [add_callback(user_id, new_val)]. *)
Definition add_click (user_id new_val : string) (db : store)
  : store * result unit :=
  add_callback user_id new_val db.

(** The save button of the row of [item], whose text box holds
    [new_name]: nothing happens unless the name was edited. *)
Definition save_click (user_id item new_name : string) (db : store)
  : store * result unit :=
  if negb (String.eqb new_name item) then
    match remove_callback user_id item db with
    | (db, Raise e) => (db, Raise e)
    | (db, Ok _) => add_callback user_id new_name db
    end
  else (db, Ok tt).

(** The delete button of the row of [item]. *)
Definition delete_click (user_id item : string) (db : store)
  : store * result unit :=
  remove_callback user_id item db.

End EditableList.

(** The user a call on the settings store acts for. *)
Definition op_user (o : SettingsManager.op) : string :=
  match o with
  | SettingsManager.OpGet u => u
  | SettingsManager.OpAddCategory u _ => u
  | SettingsManager.OpRemoveCategory u _ => u
  | SettingsManager.OpAddAccount u _ => u
  | SettingsManager.OpRemoveAccount u _ => u
  | SettingsManager.OpSetBudget u _ => u
  end.

End Configuracoes.

(** * Properties *)

(** ** Strings *)

Module PyFacts.
Import Py.

Example strip_example : ascii_strip (String "009" " a b  ") = "a b".
Proof. reflexivity. Qed.

Example strip_blank_example : ascii_strip "   " = "".
Proof. reflexivity. Qed.

Example lower_example : ascii_lower "A@B.com" = "a@b.com".
Proof. reflexivity. Qed.

Lemma append_empty_r (s : string) : (s ++ "")%string = s.
Proof.
  induction s as [|c s IH]; [reflexivity|].
  change (String c (s ++ "")%string = String c s). now rewrite IH.
Qed.

Lemma not_str_true (s : string) : not_str s = true <-> s = "".
Proof. destruct s; simpl; split; intro H; congruence. Qed.

Lemma not_str_false (s : string) : not_str s = false <-> s <> "".
Proof. destruct s; simpl; split; intro H; congruence. Qed.

Lemma is_space_lower_char (c : ascii) :
  is_ascii_space (ascii_lower_char c) = is_ascii_space c.
Proof.
  destruct c as [b0 b1 b2 b3 b4 b5 b6 b7].
  destruct b0, b1, b2, b3, b4, b5, b6, b7; reflexivity.
Qed.

Lemma lower_char_idem (c : ascii) :
  ascii_lower_char (ascii_lower_char c) = ascii_lower_char c.
Proof.
  destruct c as [b0 b1 b2 b3 b4 b5 b6 b7].
  destruct b0, b1, b2, b3, b4, b5, b6, b7; reflexivity.
Qed.

Lemma lower_idem (s : string) : ascii_lower (ascii_lower s) = ascii_lower s.
Proof.
  induction s as [|c s IH]; simpl; [reflexivity|].
  now rewrite lower_char_idem, IH.
Qed.

Lemma lstrip_lower (s : string) :
  ascii_lstrip (ascii_lower s) = ascii_lower (ascii_lstrip s).
Proof.
  induction s as [|c s IH]; simpl; [reflexivity|].
  rewrite is_space_lower_char.
  destruct (is_ascii_space c); [exact IH | reflexivity].
Qed.

Lemma rstrip_lower (s : string) :
  ascii_rstrip (ascii_lower s) = ascii_lower (ascii_rstrip s).
Proof.
  induction s as [|c s IH]; simpl; [reflexivity|].
  rewrite IH, is_space_lower_char.
  destruct (ascii_rstrip s); simpl; [destruct (is_ascii_space c) |];
    reflexivity.
Qed.

Lemma strip_lower (s : string) :
  ascii_strip (ascii_lower s) = ascii_lower (ascii_strip s).
Proof. unfold ascii_strip. now rewrite lstrip_lower, rstrip_lower. Qed.

Lemma lstrip_no_lead (s : string) : no_lead (ascii_lstrip s).
Proof.
  induction s as [|c s IH]; simpl; [exact I|].
  destruct (is_ascii_space c) eqn:E; [exact IH | exact E].
Qed.

Lemma no_lead_lstrip (s : string) : no_lead s -> ascii_lstrip s = s.
Proof. destruct s as [|c s]; simpl; [reflexivity|]. now intros ->. Qed.

Lemma rstrip_no_lead (s : string) : no_lead s -> no_lead (ascii_rstrip s).
Proof.
  destruct s as [|c s]; simpl; [exact (fun H => H)|]. intros E.
  destruct (ascii_rstrip s); simpl; [rewrite E |]; exact E.
Qed.

Lemma rstrip_idem (s : string) :
  ascii_rstrip (ascii_rstrip s) = ascii_rstrip s.
Proof.
  induction s as [|c s IH]; simpl; [reflexivity|].
  destruct (ascii_rstrip s) as [|d r] eqn:E.
  - destruct (is_ascii_space c) eqn:Ec; simpl; [reflexivity | now rewrite Ec].
  - change (ascii_rstrip (String c (String d r))) with
      (match ascii_rstrip (String d r) with
       | EmptyString =>
           if is_ascii_space c then EmptyString else String c EmptyString
       | r0 => String c r0
       end).
    now rewrite IH.
Qed.

Lemma strip_idem (s : string) : ascii_strip (ascii_strip s) = ascii_strip s.
Proof.
  unfold ascii_strip.
  rewrite (no_lead_lstrip (ascii_rstrip (ascii_lstrip s))).
  - apply rstrip_idem.
  - apply rstrip_no_lead, lstrip_no_lead.
Qed.

(** On ASCII text the e-mail key is a fixed point of the normal form. *)
Lemma normalize_idem (s : string) :
  ascii_lower (ascii_strip (ascii_lower (ascii_strip s)))
  = ascii_lower (ascii_strip s).
Proof. now rewrite strip_lower, strip_idem, lower_idem. Qed.

End PyFacts.

(** ** Lists *)

Module ListFacts.

Lemma nodup_snoc {A : Type} (x : A) (l : list A) :
  List.NoDup l -> ~ In x l -> List.NoDup (l ++ [x]).
Proof.
  induction 1 as [|z l Hz Hl IH]; simpl; intros Hx.
  - constructor; [intros [] | constructor].
  - constructor.
    + rewrite in_app_iff. intros [H|[H|[]]]; [now apply Hz|].
      apply Hx. now left.
    + apply IH. intros H. apply Hx. now right.
Qed.

Lemma nodup_map_filter {A B : Type} (f : A -> B) (p : A -> bool)
    (l : list A) :
  List.NoDup (map f l) -> List.NoDup (map f (List.filter p l)).
Proof.
  induction l as [|x l IH]; simpl; intros H; [constructor|].
  inversion H as [|y l' Hx Hl]; subst.
  destruct (p x); simpl; [|now apply IH].
  constructor; [|now apply IH].
  intros Hin. apply Hx. apply in_map_iff in Hin as [z [Hz Hin]].
  apply filter_In in Hin as [Hin _]. apply in_map_iff. now exists z.
Qed.

End ListFacts.

(** ** Credential store *)

Module AuthFacts.
Import Auth.

Lemma find_none_of_existsb {A : Type} (f : A -> bool) (l : list A) :
  existsb f l = false -> List.find f l = None.
Proof.
  induction l as [|x l IH]; simpl; [reflexivity|].
  destruct (f x); simpl; [discriminate | exact IH].
Qed.

Lemma find_some_app {A : Type} (f : A -> bool) (l l' : list A) (x : A) :
  List.find f l = Some x -> List.find f (l ++ l') = Some x.
Proof.
  induction l as [|y l IH]; simpl; [discriminate|].
  destruct (f y); [exact (fun H => H) | exact IH].
Qed.

Lemma find_none_app {A : Type} (f : A -> bool) (l l' : list A) :
  List.find f l = None -> List.find f (l ++ l') = List.find f l'.
Proof.
  induction l as [|y l IH]; simpl; [reflexivity|].
  destruct (f y); [discriminate | exact IH].
Qed.

Lemma registered_iff (e : string) (l : list user_row) :
  existsb (email_is e) l = true <-> In e (map email l).
Proof.
  rewrite existsb_exists, in_map_iff. unfold email_is.
  split; intros [r [H1 H2]]; exists r.
  - apply String.eqb_eq in H2. now split.
  - split; [exact H2 | now apply String.eqb_eq].
Qed.

Lemma select_none_iff (e : string) (db : users_table) :
  select_password_hash e db = None <-> ~ In e (map email (rows db)).
Proof.
  unfold select_password_hash. rewrite <- registered_iff.
  destruct (existsb (email_is e) (rows db)) eqn:E.
  - split; [|now intros []].
    apply existsb_exists in E as [r [Hin Hr]].
    destruct (List.find (email_is e) (rows db)) eqn:F; [discriminate|].
    now rewrite (find_none _ _ F r Hin) in Hr.
  - rewrite (find_none_of_existsb _ _ E). simpl. split; [discriminate | reflexivity].
Qed.

Section WithHash.

Variable strip : string -> string.
Variable lower : string -> string.
Variable sha256_hexdigest : string -> string.
Variable _SALT : string.

Local Abbreviation _hash := (_hash sha256_hexdigest _SALT).
Local Abbreviation create_user :=
  (create_user strip lower sha256_hexdigest _SALT).
Local Abbreviation verify_user :=
  (verify_user strip lower sha256_hexdigest _SALT).
Local Abbreviation later := (later strip lower sha256_hexdigest _SALT).

(** What a call of [create_user] can be: refused for an empty field,
    refused for a taken e-mail, or one row appended. *)
Lemma create_user_cases (now e p : string) (db : users_table) :
  let k := lower (strip e) in
  (create_user now e p db = (db, Raise (ValueError msg_required))
   /\ (k = "" \/ p = ""))
  \/ (create_user now e p db = (db, Raise (ValueError msg_duplicate))
      /\ k <> "" /\ p <> "" /\ In k (map email (rows db)))
  \/ (create_user now e p db =
        (mk_users (rows db ++ [mk_user (seq db + 1) k (_hash p) now])
           (seq db + 1), Ok tt)
      /\ k <> "" /\ p <> "" /\ ~ In k (map email (rows db))).
Proof.
  intros k. unfold Auth.create_user. fold k.
  destruct (Py.not_str k) eqn:Ek; simpl.
  { left. split; [reflexivity|]. left. now apply PyFacts.not_str_true. }
  destruct (Py.not_str p) eqn:Ep; simpl.
  { left. split; [reflexivity|]. right. now apply PyFacts.not_str_true. }
  apply PyFacts.not_str_false in Ek, Ep.
  unfold insert_user.
  destruct (existsb (email_is k) (rows db)) eqn:E; right.
  - left. repeat split; try assumption. now apply registered_iff.
  - right. repeat split; try assumption.
    rewrite <- registered_iff, E. discriminate.
Qed.

Lemma create_user_keeps_hash (now e p k h : string) (db : users_table) :
  select_password_hash k db = Some h ->
  select_password_hash k (fst (create_user now e p db)) = Some h.
Proof.
  intros H.
  destruct (create_user_cases now e p db) as [[-> _]|[[-> _]|[-> _]]];
    simpl; try exact H.
  unfold select_password_hash in *. simpl.
  destruct (List.find (email_is k) (rows db)) eqn:F; [|discriminate].
  now rewrite (find_some_app _ _ _ _ F).
Qed.

Lemma later_keeps_hash (k h : string) (db db' : users_table) :
  later db db' ->
  select_password_hash k db = Some h ->
  select_password_hash k db' = Some h.
Proof.
  induction 1 as [|db1 now e p _ IH]; intros H; [exact H|].
  now apply create_user_keeps_hash, IH.
Qed.

Lemma create_user_registers (now e p : string) (db db' : users_table) :
  create_user now e p db = (db', Ok tt) ->
  p <> ""
  /\ lower (strip e) <> ""
  /\ ~ In (lower (strip e)) (map email (rows db))
  /\ select_password_hash (lower (strip e)) db' = Some (_hash p).
Proof.
  intros H.
  destruct (create_user_cases now e p db)
    as [[E _]|[[E _]|[E [Hk [Hp Hn]]]]]; rewrite E in H;
    try discriminate.
  injection H as <-. repeat split; try assumption.
  unfold select_password_hash. simpl.
  apply select_none_iff in Hn. unfold select_password_hash in Hn.
  destruct (List.find (email_is (lower (strip e))) (rows db)) eqn:F;
    [discriminate|].
  rewrite (find_none_app _ _ _ F). simpl.
  unfold email_is. simpl. now rewrite String.eqb_refl.
Qed.

Lemma verify_user_of_hash (e p h : string) (db : users_table) :
  lower (strip e) <> "" ->
  select_password_hash (lower (strip e)) db = Some h ->
  verify_user e p db =
    if Py.not_str p then false else String.eqb h (_hash p).
Proof.
  intros Hk Hs. unfold Auth.verify_user. rewrite Hs.
  apply PyFacts.not_str_false in Hk. now rewrite Hk.
Qed.

Lemma verify_user_unregistered (e p : string) (db : users_table) :
  ~ In (lower (strip e)) (list_users db) ->
  verify_user e p db = false.
Proof.
  intros Hn. apply select_none_iff in Hn. unfold Auth.verify_user.
  rewrite Hn. now destruct (_ || _).
Qed.

Hypothesis hash_injective : forall p q : string, _hash p = _hash q -> p = q.

Lemma verify_user_registered (e p p' : string) (db : users_table) :
  p <> "" ->
  lower (strip e) <> "" ->
  select_password_hash (lower (strip e)) db = Some (_hash p) ->
  verify_user e p' db = String.eqb p' p.
Proof.
  intros Hp Hk Hs. rewrite (verify_user_of_hash _ _ _ _ Hk Hs).
  destruct (Py.not_str p') eqn:E.
  - apply PyFacts.not_str_true in E. subst p'. symmetry.
    apply String.eqb_neq. congruence.
  - destruct (String.eqb_spec p' p) as [->|Hne].
    + apply String.eqb_refl.
    + apply String.eqb_neq. intros Hh. apply Hne. symmetry.
      now apply hash_injective.
Qed.

Lemma later_keeps_emails (k : string) (db db' : users_table) :
  later db db' ->
  In k (list_users db) -> In k (list_users db').
Proof.
  induction 1 as [|db1 now e p _ IH]; intros H; [exact H|].
  specialize (IH H). unfold list_users in *.
  destruct (create_user_cases now e p db1)
    as [[-> _]|[[-> _]|[-> _]]]; simpl; try exact IH.
  rewrite map_app, in_app_iff. now left.
Qed.

(** C1. Once [create_user] has accepted an e-mail and a password, and
    whatever registrations follow, [verify_user] on an e-mail with the
    same normal form [strip().lower()] (the e-mail as it was typed, or
    any other spelling of it) answers true for the registered password and
    false for every other one, provided the salted hash is injective; and
    it answers false for every e-mail whose normal form no row of the
    table carries. *)
Theorem verify_user_exact_password
    (now email0 password : string) (db db' db'' : users_table) :
  create_user now email0 password db = (db', Ok tt) ->
  later db' db'' ->
  (forall e' p',
      lower (strip e') = lower (strip email0) ->
      verify_user e' p' db'' = String.eqb p' password)
  /\ (forall e' p',
         ~ In (lower (strip e')) (list_users db'') ->
         verify_user e' p' db'' = false).
Proof.
  intros Hc Hl.
  destruct (create_user_registers _ _ _ _ _ Hc) as [Hp [Hk [_ Hs]]].
  apply (later_keeps_hash _ _ _ _ Hl) in Hs.
  split.
  - intros e' p' He. apply verify_user_registered; trivial;
      now rewrite He.
  - intros e' p'. apply verify_user_unregistered.
Qed.

End WithHash.

(** C1 on ASCII text, at the identity in place of SHA-256 and an empty
    salt: after registering [" A@B.com "], the password logs in under
    either spelling and nothing else does. *)
Lemma verify_user_exact_password_witness :
  let sha := fun s : string => s in
  let create := create_user Py.ascii_strip Py.ascii_lower sha "" in
  let verify := verify_user Py.ascii_strip Py.ascii_lower sha "" in
  let db1 := fst (create "t0" " A@B.com " "pw1" init_db) in
  verify " A@B.com " "pw1" db1 = true
  /\ verify "a@b.com" "pw1" db1 = true
  /\ verify "a@b.com" "pw2" db1 = false
  /\ verify "c@d.com" "pw1" db1 = false.
Proof.
  intros sha create verify db1.
  assert (Hinj : forall p q : string, _hash sha "" p = _hash sha "" q -> p = q).
  { unfold _hash, sha. intros p q.
    now rewrite !PyFacts.append_empty_r. }
  destruct (verify_user_exact_password Py.ascii_strip Py.ascii_lower sha ""
              Hinj "t0" " A@B.com " "pw1" init_db db1 db1 eq_refl
              (later_refl Py.ascii_strip Py.ascii_lower sha "" db1))
    as [H1 H2].
  split; [|split; [|split]].
  - exact (H1 " A@B.com " "pw1" eq_refl).
  - exact (H1 "a@b.com" "pw1" eq_refl).
  - exact (H1 "a@b.com" "pw2" eq_refl).
  - apply H2. vm_compute. intros [H|[]]. discriminate H.
Defined.

(** C2. Two e-mails with the same non-empty normal form [strip().lower()]
    and two non-empty passwords: on a table that does not hold that e-mail
    the first [create_user] is accepted; from then on, whatever
    registrations come in between, [create_user] with the second e-mail
    raises the [ValueError] that says "já cadastrado" and leaves the table
    as it was. *)
Theorem create_user_duplicate_normalized
    (strip lower sha : string -> string)
    (salt now1 now2 e1 e2 p1 p2 : string) (db : users_table) :
  lower (strip e1) = lower (strip e2) ->
  lower (strip e1) <> "" ->
  p1 <> "" ->
  p2 <> "" ->
  ~ In (lower (strip e1)) (list_users db) ->
  exists db',
    create_user strip lower sha salt now1 e1 p1 db = (db', Ok tt)
    /\ (forall db'',
          later strip lower sha salt db' db'' ->
          create_user strip lower sha salt now2 e2 p2 db''
          = (db'', Raise (ValueError msg_duplicate))).
Proof.
  intros He Hk Hp1 Hp2 Hn.
  destruct (create_user_cases strip lower sha salt now1 e1 p1 db)
    as [[_ [H|H]]|[[_ [_ [_ H]]]|[E _]]]; try contradiction.
  eexists. split; [exact E|].
  intros db'' Hl.
  assert (Hin : In (lower (strip e2)) (list_users db'')).
  { apply (later_keeps_emails _ _ _ _ _ _ _ Hl). unfold list_users. simpl.
    rewrite map_app, in_app_iff. right. left. exact He. }
  destruct (create_user_cases strip lower sha salt now2 e2 p2 db'')
    as [[_ [H|H]]|[[E2 _]|[_ [_ [_ H]]]]]; try congruence.
  contradiction.
Qed.

(** C2 on the spec's own pair: [" A@B.com "] and ["a@b.com"] collide. *)
Lemma create_user_duplicate_normalized_witness :
  let create :=
    create_user Py.ascii_strip Py.ascii_lower (fun s : string => s) "" in
  let db1 := fst (create "t0" " A@B.com " "pw1" init_db) in
  create "t0" " A@B.com " "pw1" init_db = (db1, Ok tt)
  /\ create "t1" "a@b.com" "pw2" db1
     = (db1, Raise (ValueError msg_duplicate)).
Proof.
  intros create db1.
  assert (Hk : Py.ascii_lower (Py.ascii_strip " A@B.com ") <> "")
    by (vm_compute; discriminate).
  assert (Hp1 : "pw1" <> "") by discriminate.
  assert (Hp2 : "pw2" <> "") by discriminate.
  destruct (create_user_duplicate_normalized Py.ascii_strip Py.ascii_lower
              (fun s : string => s) "" "t0" "t1"
              " A@B.com " "a@b.com" "pw1" "pw2" init_db
              eq_refl Hk Hp1 Hp2 (fun H : False => H))
    as [db' [H1 H2]].
  assert (Hdb : db' = db1).
  { unfold db1, create. now rewrite H1. }
  rewrite Hdb in H2. split.
  - reflexivity.
  - apply H2. apply later_refl.
Defined.

(** C2 as written fails twice.  When the common normal form is empty
    ([" "] and [""] both normalise to the empty text) the first
    registration is refused for an empty e-mail.  And the refusal of a
    duplicate is not an error of another class than that refusal: both
    are [ValueError], told apart by their message only. *)
Lemma create_user_blank_email_refused :
  let create :=
    create_user Py.ascii_strip Py.ascii_lower (fun s : string => s) "" in
  let db1 := fst (create "t0" "a@b.com" "pw1" init_db) in
  Py.ascii_lower (Py.ascii_strip " ") = Py.ascii_lower (Py.ascii_strip "")
  /\ create "t0" " " "pw1" init_db
     = (init_db, Raise (ValueError msg_required))
  /\ create "t1" "a@b.com" "pw2" db1
     = (db1, Raise (ValueError msg_duplicate)).
Proof. repeat split. Qed.

End AuthFacts.

(** ** Expense store *)

Module DataManagerFacts.
Import DataManager Patch.

Example isoformat_example : isoformat (mk_date 2024 1 2) = "2024-01-02".
Proof. reflexivity. Qed.

Example to_iso_datetime_example :
  to_iso (PyDatetime (mk_date 987 12 31) 23 59 59 0) = "0987-12-31".
Proof. reflexivity. Qed.

Example text_le_example :
  text_le "2024-01-01" "2024-01-02" = true
  /\ text_le "2024-01-02" "2024-01-01" = false
  /\ text_le "2024-01" "2024-01-01" = true.
Proof. repeat split. Qed.

(** *** Comparison of TEXT cells *)

Lemma ascii_compare_refl (c : ascii) : Ascii.compare c c = Eq.
Proof. unfold Ascii.compare. apply N.compare_refl. Qed.

Lemma ascii_compare_lt_trans (a b c : ascii) :
  Ascii.compare a b = Lt -> Ascii.compare b c = Lt -> Ascii.compare a c = Lt.
Proof.
  unfold Ascii.compare. rewrite !N.compare_lt_iff. apply N.lt_trans.
Qed.

Lemma compare_refl (s : string) : String.compare s s = Eq.
Proof.
  induction s as [|c s IH]; simpl; [reflexivity|].
  now rewrite ascii_compare_refl.
Qed.

Lemma compare_lt_trans (a b c : string) :
  String.compare a b = Lt -> String.compare b c = Lt ->
  String.compare a c = Lt.
Proof.
  revert b c. induction a as [|x a IH]; intros [|y b] [|z c]; simpl;
    try discriminate; try reflexivity.
  destruct (Ascii.compare x y) eqn:Exy; try discriminate;
    destruct (Ascii.compare y z) eqn:Eyz; try discriminate; intros H1 H2.
  - apply Ascii.compare_eq_iff in Exy, Eyz. subst.
    rewrite ascii_compare_refl. now apply (IH b).
  - apply Ascii.compare_eq_iff in Exy. subst. now rewrite Eyz.
  - apply Ascii.compare_eq_iff in Eyz. subst. now rewrite Exy.
  - now rewrite (ascii_compare_lt_trans _ _ _ Exy Eyz).
Qed.

Lemma compare_gt_lt (a b : string) :
  String.compare a b = Gt -> String.compare b a = Lt.
Proof.
  intros H. rewrite String.compare_antisym, H. reflexivity.
Qed.

(** *** ORDER BY *)

Lemma precedes_spec (r1 r2 : expense) :
  precedes r1 r2 = true <-> date_id_desc r1 r2.
Proof.
  unfold precedes, date_id_desc.
  destruct (String.compare (date r2) (date r1)) eqn:E.
  - apply String.compare_eq_iff in E. rewrite Z.leb_le. split.
    + intros H. right. now split.
    + intros [H|[_ H]]; [discriminate | exact H].
  - split; [now left | reflexivity].
  - split; [discriminate|]. intros [H|[H _]]; [discriminate|].
    rewrite H, compare_refl in E. discriminate.
Qed.

Lemma precedes_total (r1 r2 : expense) :
  precedes r1 r2 = false -> precedes r2 r1 = true.
Proof.
  unfold precedes. rewrite (String.compare_antisym (date r1) (date r2)).
  destruct (String.compare (date r2) (date r1)); simpl;
    try discriminate; try reflexivity.
  rewrite Z.leb_gt, Z.leb_le. lia.
Qed.

Lemma date_id_desc_trans (r1 r2 r3 : expense) :
  date_id_desc r1 r2 -> date_id_desc r2 r3 -> date_id_desc r1 r3.
Proof.
  unfold date_id_desc. intros [H1|[E1 H1]] [H2|[E2 H2]].
  - left. now apply (compare_lt_trans _ (date r2)).
  - left. now rewrite <- E2.
  - left. now rewrite E1.
  - right. split; [congruence | lia].
Qed.

Lemma insert_row_perm (r : expense) (l : list expense) :
  Permutation (insert_row r l) (r :: l).
Proof.
  induction l as [|x l IH]; simpl; [reflexivity|].
  destruct (precedes r x); [reflexivity|].
  rewrite IH. apply perm_swap.
Qed.

Lemma order_by_perm (l : list expense) : Permutation (order_by l) l.
Proof.
  induction l as [|x l IH]; simpl; [reflexivity|].
  rewrite insert_row_perm. now constructor.
Qed.

Lemma insert_row_sorted (r : expense) (l : list expense) :
  StronglySorted date_id_desc l -> StronglySorted date_id_desc (insert_row r l).
Proof.
  induction 1 as [|x l Hs IH Hx]; simpl.
  - repeat constructor.
  - destruct (precedes r x) eqn:E.
    + apply precedes_spec in E. constructor.
      * now constructor.
      * constructor; [exact E|].
        eapply List.Forall_impl; [|exact Hx].
        intros y. now apply date_id_desc_trans.
    + apply precedes_total, precedes_spec in E. constructor; [exact IH|].
      rewrite (insert_row_perm r l). now constructor.
Qed.

Lemma order_by_sorted (l : list expense) :
  StronglySorted date_id_desc (order_by l).
Proof.
  induction l as [|x l IH]; simpl; [constructor|].
  now apply insert_row_sorted.
Qed.

Lemma in_list_expenses (user : string) (s e : option date_arg)
    (c a : option string) (db : expenses_table) (r : expense) :
  In r (list_expenses user s e c a db)
  <-> In r (rows db) /\ matches user s e c a r = true.
Proof.
  unfold list_expenses. rewrite <- filter_In.
  split; apply Permutation_in;
    [|symmetry]; apply order_by_perm.
Qed.

(** *** Ids *)

Lemma assign_id (f : kwarg) (r : expense) : id (assign f r) = id r.
Proof.
  destruct f as [k v]. unfold assign. revert v. unfold kwarg_type.
  destruct (column_of k) as [c|]; [|reflexivity]. now destruct c.
Qed.

Lemma fold_assign_id (fields : list kwarg) (r : expense) :
  id (fold_left (fun r f => assign f r) fields r) = id r.
Proof.
  revert r. induction fields as [|f fields IH]; intros r; simpl;
    [reflexivity|].
  now rewrite IH, assign_id.
Qed.

Lemma exec_update_ids (now : string) (i : Z) (u : string)
    (fields : list kwarg) (db : expenses_table) :
  map id (rows (exec_update now i u fields db)) = map id (rows db).
Proof.
  unfold exec_update. simpl. rewrite map_map. apply map_ext. intros r.
  destruct (_ && _); [|reflexivity].
  unfold set_updated_at. simpl. apply fold_assign_id.
Qed.

(** The table after a call of [update_expense]: as it was, or patched. *)
Lemma fst_update_expense (now : string) (i : Z) (u : string)
    (fields : list kwarg) (db : expenses_table) :
  fst (update_expense now i u fields db) = db
  \/ fst (update_expense now i u fields db) = exec_update now i u fields db.
Proof.
  unfold update_expense. destruct (bound_twice fields); [now left|].
  destruct fields as [|f fields]; [now left|]. cbv zeta.
  destruct (decide _); [now right | now left].
Qed.

Lemma forall_ids_of_map (l l' : list expense) (n : Z) :
  map id l' = map id l ->
  List.Forall (fun r => (id r <= n)%Z) l ->
  List.Forall (fun r => (id r <= n)%Z) l'.
Proof.
  intros E H. rewrite List.Forall_forall in *. intros r Hr.
  apply (in_map id) in Hr. rewrite E in Hr.
  apply in_map_iff in Hr as [r0 [<- Hr0]]. now apply H.
Qed.

Lemma step_ids_ok (db : expenses_table) (o : op) :
  ids_ok db -> ids_ok (step db o).
Proof.
  intros [Hn Hs]. destruct o as [now u d a c de ac rp cu|now i u fs|i u].
  - split; simpl.
    + rewrite map_app. apply ListFacts.nodup_snoc; [exact Hn|].
      intros Hin. apply in_map_iff in Hin as [r [Hr Hin]].
      rewrite List.Forall_forall in Hs. specialize (Hs _ Hin). simpl in Hr. lia.
    + apply Forall_app. split.
      * eapply List.Forall_impl; [|exact Hs]. simpl. intros r Hr. lia.
      * constructor; [simpl; lia | constructor].
  - simpl. destruct (fst_update_expense now i u fs db) as [->| ->];
      [now split|].
    split.
    + now rewrite exec_update_ids.
    + apply (forall_ids_of_map (rows db)); [|exact Hs].
      apply (exec_update_ids now i u fs db).
  - split; simpl.
    + now apply ListFacts.nodup_map_filter.
    + rewrite List.Forall_forall in *. intros r Hr.
      apply filter_In in Hr as [Hr _]. now apply Hs.
Qed.

Lemma run_ids_ok (ops : list op) : ids_ok (run ops).
Proof.
  unfold run.
  assert (H0 : ids_ok init_db) by (split; constructor).
  revert H0. generalize init_db.
  induction ops as [|o ops IH]; intros db Hdb; simpl; [exact Hdb|].
  apply IH. now apply step_ids_ok.
Qed.

Lemma sorted_strict (l : list expense) :
  StronglySorted date_id_desc l ->
  List.NoDup (map id l) ->
  StronglySorted date_id_desc_strict l.
Proof.
  induction 1 as [|x l Hs IH Hx]; simpl; intros Hn; [constructor|].
  inversion Hn as [|i l' Hi Hl]; subst.
  constructor; [now apply IH|].
  rewrite List.Forall_forall in *. intros y Hy.
  destruct (Hx y Hy) as [H|[Hd Hle]]; [now left|]. right.
  split; [exact Hd|].
  assert (id y <> id x).
  { intros E. apply Hi. rewrite <- E. now apply in_map. }
  lia.
Qed.

Lemma list_expenses_ids_nodup (user : string) (s e : option date_arg)
    (c a : option string) (db : expenses_table) :
  ids_ok db -> List.NoDup (map id (list_expenses user s e c a db)).
Proof.
  intros [Hn _]. unfold list_expenses.
  eapply Permutation_NoDup.
  - apply Permutation_map. symmetry. apply order_by_perm.
  - now apply ListFacts.nodup_map_filter.
Qed.

(** *** Dates as texts *)

Lemma digit_compare (a b : nat) :
  Ascii.compare (digit a) (digit b) = Nat.compare (a mod 10) (b mod 10).
Proof.
  unfold Ascii.compare, digit, ascii_of_nat.
  assert (Ha : (a mod 10 < 10)%nat) by (apply Nat.mod_upper_bound; lia).
  assert (Hb : (b mod 10 < 10)%nat) by (apply Nat.mod_upper_bound; lia).
  rewrite !N_ascii_embedding by lia.
  rewrite <- Nat2N.inj_compare.
  destruct (Nat.compare_spec (48 + a mod 10) (48 + b mod 10));
    destruct (Nat.compare_spec (a mod 10) (b mod 10)); try reflexivity; lia.
Qed.

Ltac by_digits :=
  try reflexivity; exfalso; zify; Z.div_mod_to_equations; lia.

Lemma compare_pad2 (n m : nat) (s1 s2 : string) :
  (n < 100)%nat -> (m < 100)%nat ->
  String.compare (String (digit (n / 10)) (String (digit n) s1))
    (String (digit (m / 10)) (String (digit m) s2))
  = match Nat.compare n m with Eq => String.compare s1 s2 | o => o end.
Proof.
  intros Hn Hm. cbn [String.compare]. rewrite !digit_compare.
  destruct (Nat.compare_spec (n / 10 mod 10) (m / 10 mod 10));
    [destruct (Nat.compare_spec (n mod 10) (m mod 10))| |];
    destruct (Nat.compare_spec n m); by_digits.
Qed.

Lemma compare_pad4 (n m : nat) (s1 s2 : string) :
  (n < 100 * 100)%nat -> (m < 100 * 100)%nat ->
  String.compare
    (String (digit (n / 1000)) (String (digit (n / 100))
       (String (digit (n / 10)) (String (digit n) s1))))
    (String (digit (m / 1000)) (String (digit (m / 100))
       (String (digit (m / 10)) (String (digit m) s2))))
  = match Nat.compare n m with Eq => String.compare s1 s2 | o => o end.
Proof.
  intros Hn Hm. cbn [String.compare]. rewrite !digit_compare.
  destruct (Nat.compare_spec (n / 1000 mod 10) (m / 1000 mod 10));
    [destruct (Nat.compare_spec (n / 100 mod 10) (m / 100 mod 10));
     [destruct (Nat.compare_spec (n / 10 mod 10) (m / 10 mod 10));
      [destruct (Nat.compare_spec (n mod 10) (m mod 10))| |]| |]| |];
    destruct (Nat.compare_spec n m); by_digits.
Qed.

Lemma compare_isoformat (d1 d2 : date_type) :
  date_fits d1 -> date_fits d2 ->
  String.compare (isoformat d1) (isoformat d2)
  = match Nat.compare (year d1) (year d2) with
    | Eq => match Nat.compare (month d1) (month d2) with
            | Eq => Nat.compare (day d1) (day d2)
            | o => o
            end
    | o => o
    end.
Proof.
  intros [Hy1 [Hm1 Hd1]] [Hy2 [Hm2 Hd2]].
  unfold isoformat. cbv [pad4 pad2 String.append].
  rewrite compare_pad4 by assumption.
  destruct (Nat.compare (year d1) (year d2)); try reflexivity.
  change (String.compare (String "-" ?a) (String "-" ?b))
    with (String.compare a b).
  rewrite compare_pad2 by assumption.
  destruct (Nat.compare (month d1) (month d2)); try reflexivity.
  change (String.compare (String "-" ?a) (String "-" ?b))
    with (String.compare a b).
  rewrite compare_pad2 by assumption.
  now destruct (Nat.compare (day d1) (day d2)).
Qed.

Lemma isoformat_inj (d1 d2 : date_type) :
  date_fits d1 -> date_fits d2 -> isoformat d1 = isoformat d2 -> d1 = d2.
Proof.
  intros H1 H2 E.
  assert (C : String.compare (isoformat d1) (isoformat d2) = Eq)
    by (rewrite E; apply compare_refl).
  rewrite (compare_isoformat _ _ H1 H2) in C.
  destruct d1 as [y1 m1 dd1], d2 as [y2 m2 dd2]. simpl in C.
  destruct (Nat.compare_spec y1 y2); try discriminate.
  destruct (Nat.compare_spec m1 m2); try discriminate.
  destruct (Nat.compare_spec dd1 dd2); try discriminate.
  congruence.
Qed.

Lemma isoformat_length (d : date_type) : String.length (isoformat d) = 10%nat.
Proof. reflexivity. Qed.

(** *** The round trip *)

(** C3. The row that [add_expense] inserts comes back from an unfiltered
    [list_expenses] of its user under the id that [add_expense] returned,
    with every field but the date as it was passed (for every amount, the
    non-negative ones included).  Its date is the string that was passed,
    when the date was passed as a string; for a [date], and for a
    [datetime] whatever its time of day, it is the ISO text of the date:
    ten characters, from which the date can be read back, since no other
    date has the same text; 9 March 2024 at 13:45, for one, is listed as
    ["2024-03-09"]. *)
Theorem add_expense_list_expenses_roundtrip
    (now user : string) (d : date_arg) (a : Q)
    (cat descr acc : string) (rp : option string) (cur : string)
    (db : expenses_table) :
  (exists r : expense,
      In r (list_expenses user None None None None
              (fst (add_expense now user d a cat descr acc rp cur db)))
      /\ id r = snd (add_expense now user d a cat descr acc rp cur db)
      /\ user_id r = user
      /\ match d with
         | PyStr s => date r = s
         | PyDate dt | PyDatetime dt _ _ _ _ =>
             date r = isoformat dt
             /\ String.length (date r) = 10%nat
             /\ (date_fits dt ->
                 forall dt', date_fits dt' -> isoformat dt' = date r ->
                             dt' = dt)
         end
      /\ amount r = a
      /\ currency r = cur
      /\ category r = cat
      /\ description r = descr
      /\ account r = acc
      /\ receipt_path r = rp)
  /\ map date
       (list_expenses user None None None None
          (fst (add_expense now user
                  (PyDatetime (mk_date 2024 3 9) 13 45 0 0) a cat descr acc
                  rp cur init_db)))
     = ["2024-03-09"].
Proof.
  split.
  - eexists. split; [|split; [|split; [|split]]].
    + apply in_list_expenses. split.
      * simpl. apply in_or_app. right. left. reflexivity.
      * unfold matches. simpl. now rewrite String.eqb_refl.
    + reflexivity.
    + reflexivity.
    + cbn [date]. destruct d as [dt h m s us|dt|s]; cbn [to_iso].
      * split; [reflexivity|]. split; [apply isoformat_length|].
        intros H dt' H' E. now apply isoformat_inj.
      * split; [reflexivity|]. split; [apply isoformat_length|].
        intros H dt' H' E. now apply isoformat_inj.
      * reflexivity.
    + simpl. repeat split.
  - unfold list_expenses, matches. simpl. rewrite String.eqb_refl.
    reflexivity.
Qed.

(** C6. Whatever the filters, the rows of [list_expenses] are in
    descending order of date and, on one date, of id; in a table that
    calls of this module built, where ids are distinct and grow with each
    insertion, the id strictly decreases along one date.  On a fresh
    table, an expense dated 2024-01-01 followed by one dated 2024-01-02
    get ids 1 and 2 and are listed as [2; 1]. *)
Theorem list_expenses_date_desc_id_desc
    (user : string) (s e : option date_arg) (c a : option string)
    (db : expenses_table) (ops : list op) :
  StronglySorted date_id_desc (list_expenses user s e c a db)
  /\ StronglySorted date_id_desc_strict
       (list_expenses user s e c a (run ops))
  /\ (forall (now1 now2 : string) (a1 a2 : Q)
             (cat1 cat2 descr1 descr2 acc1 acc2 : string)
             (rp1 rp2 : option string) (cur1 cur2 : string),
         let '(db1, id1) :=
           add_expense now1 user (PyDate (mk_date 2024 1 1)) a1
             cat1 descr1 acc1 rp1 cur1 init_db in
         let '(db2, id2) :=
           add_expense now2 user (PyDate (mk_date 2024 1 2)) a2
             cat2 descr2 acc2 rp2 cur2 db1 in
         id1 = 1%Z /\ id2 = 2%Z
         /\ map id (list_expenses user None None None None db2) = [2%Z; 1%Z]
         /\ map date (list_expenses user None None None None db2)
            = ["2024-01-02"; "2024-01-01"]).
Proof.
  split; [apply order_by_sorted|]. split.
  { apply sorted_strict; [apply order_by_sorted|].
    apply list_expenses_ids_nodup, run_ids_ok. }
  intros. simpl. repeat split.
  all: unfold list_expenses, matches; simpl; rewrite String.eqb_refl;
    reflexivity.
Qed.

(** *** Sums *)










(** *** Patches *)

Lemma unknown_fields_in (fields : list kwarg) (k : string) :
  k ∈ unknown_fields fields <-> In k (map key fields) /\ ~ In k allowed.
Proof.
  unfold unknown_fields.
  rewrite elem_of_difference, !elem_of_list_to_set, <- !list_elem_of_In.
  reflexivity.
Qed.

Lemma bound_twice_some (fields : list kwarg) (k : string) :
  bound_twice fields = Some k -> In k (map key fields) /\ In k parameters.
Proof.
  unfold bound_twice. intros H. apply find_some in H as [H1 H2].
  split; [exact H1|].
  apply existsb_exists in H2 as [k' [Hin Hk]].
  apply String.eqb_eq in Hk. now subst.
Qed.

Lemma bound_twice_none (fields : list kwarg) :
  bound_twice fields = None ->
  forall k, In k (map key fields) -> ~ In k parameters.
Proof.
  unfold bound_twice. intros H k Hk Hp.
  pose proof (find_none _ _ H k Hk) as Hf. cbv beta in Hf.
  apply Bool.not_true_iff_false in Hf. apply Hf.
  apply existsb_exists. exists k. split; [exact Hp | apply String.eqb_refl].
Qed.



(** C4, amended. A patch with a key outside the whitelist makes
    [update_expense] raise before any statement runs: the table, and so the
    row and its [updated_at], stay as they were.  When no key of the patch
    is [expense_id] or [user_id], the error is a [ValueError] whose message
    lists the keys outside the whitelist, each once, in an order that the
    patch does not fix; when one is, the call is refused with a
    [TypeError], as the name is bound twice.  An empty patch returns at
    once and changes nothing either. *)
Theorem update_expense_unknown_key_rejected
    (now : string) (expense_id : Z) (user : string) (fields : list kwarg)
    (db : expenses_table) :
  (exists k : string, In k (map key fields) /\ ~ In k allowed) ->
  (exists e : exn,
      update_expense now expense_id user fields db = (db, Raise e)
      /\ ((forall k, In k (map key fields) -> ~ In k parameters) ->
          exists names : list string,
            e = ValueError ("Unknown field(s): " ++ join_comma names)
            /\ List.NoDup names
            /\ (forall k, In k names
                          <-> In k (map key fields) /\ ~ In k allowed))
      /\ ((exists k, In k (map key fields) /\ In k parameters) ->
          exists msg : string, e = TypeError msg))
  /\ update_expense now expense_id user [] db = (db, Ok tt).
Proof.
  intros [k Hk]. split; [|reflexivity].
  apply unknown_fields_in in Hk.
  unfold update_expense.
  destruct (bound_twice fields) as [k'|] eqn:Eb.
  - exists (TypeError (msg_multiple_values k')). split; [reflexivity|].
    split; [|intros _; now eexists].
    intros Hno. apply bound_twice_some in Eb as [H1 H2].
    now destruct (Hno k' H1).
  - destruct fields as [|f fields].
    { apply unknown_fields_in in Hk as [[] _]. }
    cbv zeta. destruct (decide _) as [Hu|Hu].
    { rewrite Hu in Hk. now apply not_elem_of_empty in Hk. }
    eexists. split; [reflexivity|]. split.
    + intros _. exists (elements (unknown_fields (f :: fields))).
      split; [reflexivity|]. split.
      * apply NoDup_ListNoDup, NoDup_elements.
      * intros k0. rewrite <- unknown_fields_in, <- elem_of_elements.
        symmetry. apply list_elem_of_In.
    + intros [k0 [H1 H2]]. now destruct (bound_twice_none _ Eb k0 H1).
Qed.

(** C4 amended, on a stored expense: a patch that sets the amount and
    also names ["owner"] is refused with a [ValueError] that names
    ["owner"], and the table is as it was. *)
Lemma update_expense_unknown_key_rejected_witness :
  let db1 :=
    fst (add_expense "t0" "u" (PyStr "2024-01-01") 10 "Lazer" "" "Dinheiro"
           None "BRL" init_db) in
  let patch := [kw "amount" (20 : Q); kw "owner" (VStr "v")] in
  exists names : list string,
    update_expense "t1" 1 "u" patch db1
    = (db1, Raise (ValueError ("Unknown field(s): " ++ join_comma names)))
    /\ In "owner" names
    /\ update_expense "t1" 1 "u" [] db1 = (db1, Ok tt).
Proof.
  intros db1 patch.
  assert (Hno : ~ In "owner" allowed).
  { intros Hin. repeat (destruct Hin as [Hin|Hin]; [discriminate Hin|]).
    exact Hin. }
  assert (H : exists k : string, In k (map key patch) /\ ~ In k allowed).
  { exists "owner". split; [right; left; reflexivity | exact Hno]. }
  destruct (update_expense_unknown_key_rejected "t1" 1 "u" patch db1 H)
    as [[e [H1 [H2 _]]] H3].
  destruct H2 as [names [-> [_ Hin]]].
  { intros k [<-|[<-|[]]] [Hp|[Hp|[]]]; discriminate Hp. }
  exists names. split; [exact H1|]. split; [|exact H3].
  apply Hin. split; [right; left; reflexivity | exact Hno].
Defined.

(** C4 as written fails on the key ["user_id"]: Python refuses the call
    with a [TypeError] before the body of [update_expense] runs, so the
    whitelist is never consulted and no [ValueError] is raised. *)
Lemma update_expense_user_id_key_type_error :
  let db1 :=
    fst (add_expense "t0" "u" (PyStr "2024-01-01") 10 "Lazer" "" "Dinheiro"
           None "BRL" init_db) in
  update_expense "t1" 1 "u" [kw "user_id" (VStr "v")] db1
  = (db1,
     Raise (TypeError
              "services.data_manager.update_expense() got multiple values for keyword argument 'user_id'")).
Proof. reflexivity. Qed.

(** *** Amounts *)

Lemma assign_nonneg (f : kwarg) (r : expense) :
  kwarg_nonneg f -> (0 <= amount r)%Q -> (0 <= amount (assign f r))%Q.
Proof.
  destruct f as [k v]. unfold kwarg_nonneg, assign. revert v.
  unfold kwarg_type. destruct (column_of k) as [c|]; [|trivial].
  destruct c; simpl; trivial.
Qed.

Lemma fold_assign_nonneg (fields : list kwarg) (r : expense) :
  Forall kwarg_nonneg fields -> (0 <= amount r)%Q ->
  (0 <= amount (fold_left (fun r f => assign f r) fields r))%Q.
Proof.
  intros H. revert r. induction H as [|f fields Hf _ IH]; intros r Hr; simpl.
  - exact Hr.
  - apply IH. now apply assign_nonneg.
Qed.

Lemma step_nonneg (db : expenses_table) (o : op) :
  op_nonneg o ->
  List.Forall (fun r => (0 <= amount r)%Q) (rows db) ->
  List.Forall (fun r => (0 <= amount r)%Q) (rows (step db o)).
Proof.
  intros Ho Hdb. destruct o as [now u d a c de ac rp cu|now i u fs|i u]; simpl.
  - apply Forall_app. split; [exact Hdb|]. constructor; [exact Ho|constructor].
  - destruct (fst_update_expense now i u fs db) as [->| ->]; [exact Hdb|].
    simpl. rewrite List.Forall_forall in *. intros r Hr.
    apply in_map_iff in Hr as [r0 [<- Hr0]].
    destruct (_ && _); [|now apply Hdb].
    unfold set_updated_at. simpl.
    apply (fold_assign_nonneg fs); [exact Ho | now apply Hdb].
  - rewrite List.Forall_forall in *. intros r Hr.
    apply filter_In in Hr as [Hr _]. now apply Hdb.
Qed.

Lemma fold_step_nonneg (ops : list op) (db : expenses_table) :
  List.Forall op_nonneg ops ->
  List.Forall (fun r => (0 <= amount r)%Q) (rows db) ->
  List.Forall (fun r => (0 <= amount r)%Q) (rows (fold_left step ops db)).
Proof.
  intros H. revert db. induction H as [|o ops Ho _ IH]; intros db Hdb; simpl.
  - exact Hdb.
  - apply IH. now apply step_nonneg.
Qed.

(** C5, amended. The store checks no amount; it keeps what it is given.
    From an empty table, if every [add_expense] and every [update_expense]
    of a sequence of calls (deletions allowed in between) is given an
    amount that is not negative, then every row that [list_expenses]
    returns has an amount that is not negative. *)
Theorem amounts_nonneg_when_inputs_nonneg
    (ops : list op) (user : string) (s e : option date_arg)
    (c a : option string) :
  List.Forall op_nonneg ops ->
  List.Forall (fun r => (0 <= amount r)%Q)
    (list_expenses user s e c a (run ops)).
Proof.
  intros H. apply List.Forall_forall. intros r Hr.
  apply in_list_expenses in Hr as [Hr _].
  assert (Hall := fold_step_nonneg ops init_db H (List.Forall_nil _)).
  rewrite List.Forall_forall in Hall. now apply Hall.
Qed.

(** C5 amended, on an insertion of 10 later patched to 25/2. *)
Lemma amounts_nonneg_when_inputs_nonneg_witness :
  List.Forall (fun r => (0 <= amount r)%Q)
    (list_expenses "u" None None None None
       (run [OpAdd "t0" "u" (PyStr "2024-01-01") 10 "Lazer" "" "Dinheiro"
               None "BRL";
             OpUpdate "t1" 1 "u" [kw "amount" (25 # 2 : Q)]])).
Proof.
  apply amounts_nonneg_when_inputs_nonneg.
  constructor; [discriminate|].
  constructor; [|constructor].
  constructor; [discriminate|constructor].
Defined.

(** C5 as written fails: [add_expense] stores a negative amount as it is,
    and [update_expense] writes one over a stored amount; [list_expenses]
    returns both. *)
Lemma negative_amount_is_stored :
  map amount
    (list_expenses "u" None None None None
       (run [OpAdd "t0" "u" (PyStr "2024-01-01") (-5) "Lazer" "" "Dinheiro"
               None "BRL"]))
  = [(-5)%Q]
  /\ map amount
       (list_expenses "u" None None None None
          (run [OpAdd "t0" "u" (PyStr "2024-01-01") 10 "Lazer" "" "Dinheiro"
                  None "BRL";
                OpUpdate "t1" 1 "u" [kw "amount" (-1 : Q)]]))
     = [(-1)%Q]
  /\ (-5 < 0)%Q /\ (-1 < 0)%Q.
Proof. repeat split. Qed.

End DataManagerFacts.

(** ** Settings store *)

Module SettingsFacts.
Import SettingsManager.

Lemma py_in_iff (x : string) (l : list string) :
  py_in x l = true <-> In x l.
Proof.
  unfold py_in. rewrite existsb_exists. split.
  - intros [y [Hin Hy]]. apply String.eqb_eq in Hy. now subst.
  - intros Hin. exists x. split; [exact Hin | apply String.eqb_refl].
Qed.

Lemma py_in_false (x : string) (l : list string) :
  py_in x l = false <-> ~ In x l.
Proof. rewrite <- py_in_iff. symmetry. apply Bool.not_true_iff_false. Qed.

Lemma list_remove_incl (x y : string) (l : list string) :
  In y (list_remove x l) -> In y l.
Proof.
  induction l as [|z l IH]; simpl; [trivial|].
  destruct (String.eqb z x); [now right|].
  intros [H|H]; [now left | right; now apply IH].
Qed.

Lemma list_remove_other (x y : string) (l : list string) :
  y <> x -> In y l -> In y (list_remove x l).
Proof.
  intros Hne. induction l as [|z l IH]; simpl; [trivial|].
  destruct (String.eqb_spec z x) as [->|Hz].
  - intros [H|H]; [congruence | exact H].
  - intros [H|H]; [now left | right; now apply IH].
Qed.

Lemma list_remove_gone (x : string) (l : list string) :
  List.NoDup l -> ~ In x (list_remove x l).
Proof.
  induction 1 as [|z l Hz Hl IH]; simpl; [intros []|].
  destruct (String.eqb_spec z x) as [->|Hne]; [exact Hz|].
  intros [H|H]; [congruence | now apply IH].
Qed.

Section WithJson.

Variable json : Type.
Variable json_dumps : list string -> json.
Variable json_loads : json -> list string.
Variable strip : string -> string.

(** What the invariant of the stored lists needs of [str.strip]:
    stripping what is stripped changes nothing, and no default category
    has white space at its ends. *)
Hypothesis strip_idem : forall s : string, strip (strip s) = strip s.
Hypothesis defaults_stripped :
  List.Forall (fun n => strip n = n) DEFAULT_CATEGORIES.

Local Abbreviation row := (settings_row json).
Local Abbreviation _ensure_row := (_ensure_row json json_dumps).
Local Abbreviation get_settings := (get_settings json json_dumps json_loads).
Local Abbreviation _update_field := (_update_field json json_dumps).
Local Abbreviation add_category :=
  (add_category json json_dumps json_loads strip).
Local Abbreviation remove_category :=
  (remove_category json json_dumps json_loads).
Local Abbreviation add_account :=
  (add_account json json_dumps json_loads strip).
Local Abbreviation remove_account :=
  (remove_account json json_dumps json_loads).
Local Abbreviation set_monthly_budget := (set_monthly_budget json).
Local Abbreviation stored_categories := (stored_categories json json_loads).
Local Abbreviation stored_accounts := (stored_accounts json json_loads).
Local Abbreviation names_ok := (names_ok strip).
Local Abbreviation db_ok := (db_ok json json_loads strip).
Local Abbreviation row_ok := (row_ok json json_loads strip).
Local Abbreviation run := (run json json_dumps json_loads strip).
Local Abbreviation step := (step json json_dumps json_loads strip).

Lemma list_remove_ok (x : string) (l : list string) :
  names_ok l -> names_ok (list_remove x l).
Proof.
  intros [Ht Hn]. split.
  - rewrite List.Forall_forall in *. intros y Hy.
    apply Ht. now apply list_remove_incl in Hy.
  - induction Hn as [|z l Hz Hl IH]; simpl; [constructor|].
    destruct (String.eqb z x); [exact Hl|].
    inversion Ht; subst. constructor; [|now apply IH].
    intros H. apply Hz. now apply list_remove_incl in H.
Qed.

Lemma append_name_ok (n : string) (l : list string) :
  names_ok l -> ~ In (strip n) l -> names_ok (l ++ [strip n]).
Proof.
  intros [Ht Hn] Hnot. split.
  - apply Forall_app. split; [exact Ht|].
    constructor; [apply strip_idem | constructor].
  - now apply ListFacts.nodup_snoc.
Qed.

Lemma default_categories_ok : names_ok DEFAULT_CATEGORIES.
Proof.
  split.
  - exact defaults_stripped.
  - unfold DEFAULT_CATEGORIES.
    repeat (constructor;
            [intros H; repeat (destruct H as [H|H]; [discriminate H|]);
             exact H|]).
    constructor.
Qed.

Lemma default_accounts_ok : names_ok DEFAULT_ACCOUNTS.
Proof. split; constructor. Qed.

Lemma ensure_row_present (u : string) (db : gmap string row) (r : row) :
  db !! u = Some r -> _ensure_row u db = db.
Proof. intros H. unfold SettingsManager._ensure_row. now rewrite H. Qed.

Lemma ensure_row_absent (u : string) (db : gmap string row) :
  db !! u = None ->
  _ensure_row u db
  = <[u := mk_row json (json_dumps DEFAULT_CATEGORIES)
             (json_dumps DEFAULT_ACCOUNTS) None]> db.
Proof. intros H. unfold SettingsManager._ensure_row. now rewrite H. Qed.

Lemma ensure_row_lookup (u : string) (db : gmap string row) :
  exists r : row, _ensure_row u db !! u = Some r.
Proof.
  destruct (db !! u) as [r|] eqn:E.
  - exists r. now rewrite (ensure_row_present _ _ _ E).
  - rewrite (ensure_row_absent _ _ E). eexists. apply lookup_insert_eq.
Qed.

(** [get_settings] never meets the missing row it could not subscript. *)
Lemma get_settings_ok (u : string) (db : gmap string row) :
  exists r : row,
    _ensure_row u db !! u = Some r
    /\ get_settings u db
       = (_ensure_row u db,
          Ok (mk_settings (json_loads (row_categories json r))
                (json_loads (row_accounts json r))
                (row_monthly_budget json r))).
Proof.
  destruct (ensure_row_lookup u db) as [r Hr]. exists r.
  split; [exact Hr|]. unfold SettingsManager.get_settings.
  fold (_ensure_row u db). now rewrite Hr.
Qed.

(** C9. For a user without a settings row, [set_monthly_budget] matches
    no row: the table is left as it was, whatever the value, and the
    [get_settings] that follows creates the default row and reports no
    monthly budget. *)
Theorem set_monthly_budget_without_row
    (user : string) (budget : option Q) (db : gmap string row) :
  db !! user = None ->
  set_monthly_budget user budget db = db
  /\ exists s : settings,
      snd (get_settings user (set_monthly_budget user budget db)) = Ok s
      /\ monthly_budget s = None.
Proof.
  intros H.
  assert (E : set_monthly_budget user budget db = db).
  { unfold SettingsManager.set_monthly_budget. now apply alter_id'. }
  split; [exact E|]. rewrite E.
  destruct (get_settings_ok user db) as [r [Hr ->]].
  eexists. split; [reflexivity|]. simpl.
  rewrite (ensure_row_absent _ _ H), lookup_insert_eq in Hr.
  now injection Hr as <-.
Qed.

Hypothesis json_roundtrip : forall l : list string, json_loads (json_dumps l) = l.

(** C8. For a user without a settings row, [get_settings] inserts the
    default row and returns the six default categories, no account and no
    monthly budget. *)
Theorem get_settings_defaults_for_new_user
    (user : string) (db : gmap string row) :
  db !! user = None ->
  get_settings user db
  = (<[user := mk_row json (json_dumps DEFAULT_CATEGORIES)
                 (json_dumps DEFAULT_ACCOUNTS) None]> db,
     Ok (mk_settings
           ["Alimentação"; "Transporte"; "Hospedagem"; "Lazer"; "Compras";
            "Outros"]
           [] None)).
Proof.
  intros H. destruct (get_settings_ok user db) as [r [Hr ->]].
  rewrite (ensure_row_absent _ _ H) in *.
  rewrite lookup_insert_eq in Hr. injection Hr as <-. simpl.
  now rewrite !json_roundtrip.
Qed.

(** *** What a call does, row by row *)

Lemma remove_category_eq (u n : string) (db : gmap string row) :
  exists r : row,
    _ensure_row u db !! u = Some r
    /\ remove_category u n db
       = (if py_in n (json_loads (row_categories json r))
          then _update_field u FCategories
                 (list_remove n (json_loads (row_categories json r)))
                 (_ensure_row u db)
          else _ensure_row u db, Ok tt).
Proof.
  unfold SettingsManager.remove_category.
  destruct (get_settings_ok u db) as [r [Hr ->]]. exists r.
  split; [exact Hr|]. simpl. now destruct (py_in _ _).
Qed.

Lemma remove_account_eq (u n : string) (db : gmap string row) :
  exists r : row,
    _ensure_row u db !! u = Some r
    /\ remove_account u n db
       = (if py_in n (json_loads (row_accounts json r))
          then _update_field u FAccounts
                 (list_remove n (json_loads (row_accounts json r)))
                 (_ensure_row u db)
          else _ensure_row u db, Ok tt).
Proof.
  unfold SettingsManager.remove_account.
  destruct (get_settings_ok u db) as [r [Hr ->]]. exists r.
  split; [exact Hr|]. simpl. now destruct (py_in _ _).
Qed.

Lemma add_category_eq (u n : string) (db : gmap string row) :
  strip n <> "" ->
  exists r : row,
    _ensure_row u db !! u = Some r
    /\ add_category u n db
       = (if py_in (strip n) (json_loads (row_categories json r))
          then _ensure_row u db
          else _update_field u FCategories
                 (json_loads (row_categories json r) ++ [strip n])
                 (_ensure_row u db), Ok tt).
Proof.
  intros Hn. apply PyFacts.not_str_false in Hn.
  unfold SettingsManager.add_category. rewrite Hn.
  destruct (get_settings_ok u db) as [r [Hr ->]]. exists r.
  split; [exact Hr|]. simpl. now destruct (py_in _ _).
Qed.

Lemma add_account_eq (u n : string) (db : gmap string row) :
  strip n <> "" ->
  exists r : row,
    _ensure_row u db !! u = Some r
    /\ add_account u n db
       = (if py_in (strip n) (json_loads (row_accounts json r))
          then _ensure_row u db
          else _update_field u FAccounts
                 (json_loads (row_accounts json r) ++ [strip n])
                 (_ensure_row u db), Ok tt).
Proof.
  intros Hn. apply PyFacts.not_str_false in Hn.
  unfold SettingsManager.add_account. rewrite Hn.
  destruct (get_settings_ok u db) as [r [Hr ->]]. exists r.
  split; [exact Hr|]. simpl. now destruct (py_in _ _).
Qed.

Lemma add_category_blank (u n : string) (db : gmap string row) :
  strip n = "" -> add_category u n db = (db, Ok tt).
Proof.
  intros Hn. unfold SettingsManager.add_category. now rewrite Hn.
Qed.

Lemma add_account_blank (u n : string) (db : gmap string row) :
  strip n = "" -> add_account u n db = (db, Ok tt).
Proof.
  intros Hn. unfold SettingsManager.add_account. now rewrite Hn.
Qed.

Lemma stored_categories_update (u : string) (v : list string)
    (db : gmap string row) (r : row) :
  db !! u = Some r ->
  stored_categories u (_update_field u FCategories v db) = v.
Proof.
  intros H. unfold SettingsManager.stored_categories,
    SettingsManager._update_field.
  rewrite lookup_alter_eq, H. simpl. apply json_roundtrip.
Qed.

Lemma stored_accounts_update (u : string) (v : list string)
    (db : gmap string row) (r : row) :
  db !! u = Some r ->
  stored_accounts u (_update_field u FAccounts v db) = v.
Proof.
  intros H. unfold SettingsManager.stored_accounts,
    SettingsManager._update_field.
  rewrite lookup_alter_eq, H. simpl. apply json_roundtrip.
Qed.

(** *** The invariant of the stored lists *)

Lemma ensure_row_ok (u : string) (db : gmap string row) :
  db_ok db -> db_ok (_ensure_row u db).
Proof.
  intros Hdb. destruct (db !! u) as [r|] eqn:E.
  - now rewrite (ensure_row_present _ _ _ E).
  - rewrite (ensure_row_absent _ _ E). intros u' r' Hr'.
    rewrite lookup_insert in Hr'. destruct (decide (u = u')) as [_|_].
    + injection Hr' as <-. unfold SettingsManager.row_ok. simpl.
      rewrite !json_roundtrip.
      split; [apply default_categories_ok | apply default_accounts_ok].
    + exact (Hdb _ _ Hr').
Qed.

Lemma update_field_ok (u : string) (f : field) (v : list string)
    (db : gmap string row) :
  db_ok db -> names_ok v -> db_ok (_update_field u f v db).
Proof.
  intros Hdb Hv u' r' Hr'. unfold SettingsManager._update_field in Hr'.
  rewrite lookup_alter in Hr'. destruct (decide (u = u')) as [<-|_].
  - destruct (db !! u) as [r0|] eqn:E; [|discriminate].
    injection Hr' as <-. destruct (Hdb _ _ E) as [Hc Ha].
    destruct f; unfold SettingsManager.row_ok; simpl;
      rewrite json_roundtrip; now split.
  - exact (Hdb _ _ Hr').
Qed.

Lemma set_monthly_budget_ok (u : string) (b : option Q)
    (db : gmap string row) :
  db_ok db -> db_ok (set_monthly_budget u b db).
Proof.
  intros Hdb u' r' Hr'. unfold SettingsManager.set_monthly_budget in Hr'.
  rewrite lookup_alter in Hr'. destruct (decide (u = u')) as [<-|_].
  - destruct (db !! u) as [r0|] eqn:E; [|discriminate].
    injection Hr' as <-. exact (Hdb _ _ E).
  - exact (Hdb _ _ Hr').
Qed.

Lemma step_ok (db : gmap string row) (o : op) : db_ok db -> db_ok (step db o).
Proof.
  intros Hdb. assert (He := fun u => ensure_row_ok u db Hdb).
  destruct o as [u|u n|u n|u n|u n|u b]; simpl.
  - destruct (get_settings_ok u db) as [r [_ ->]]. apply He.
  - destruct (string_dec (strip n) "") as [E|E].
    + now rewrite (add_category_blank _ _ _ E).
    + destruct (add_category_eq u n db E) as [r [Hr ->]]. simpl.
      destruct (py_in _ _) eqn:Ein; [apply He|].
      apply update_field_ok; [apply He|].
      apply append_name_ok; [apply (He u _ _ Hr) | now apply py_in_false].
  - destruct (remove_category_eq u n db) as [r [Hr ->]]. simpl.
    destruct (py_in _ _); [|apply He].
    apply update_field_ok; [apply He|].
    apply list_remove_ok, (He u _ _ Hr).
  - destruct (string_dec (strip n) "") as [E|E].
    + now rewrite (add_account_blank _ _ _ E).
    + destruct (add_account_eq u n db E) as [r [Hr ->]]. simpl.
      destruct (py_in _ _) eqn:Ein; [apply He|].
      apply update_field_ok; [apply He|].
      apply append_name_ok; [apply (He u _ _ Hr) | now apply py_in_false].
  - destruct (remove_account_eq u n db) as [r [Hr ->]]. simpl.
    destruct (py_in _ _); [|apply He].
    apply update_field_ok; [apply He|].
    apply list_remove_ok, (He u _ _ Hr).
  - now apply set_monthly_budget_ok.
Qed.

Lemma run_ok (ops : list op) : db_ok (run ops).
Proof.
  unfold SettingsManager.run.
  assert (H0 : db_ok (init_db json)) by (intros u r Hr; discriminate Hr).
  revert H0. generalize (init_db json).
  induction ops as [|o ops IH]; intros db Hdb; simpl; [exact Hdb|].
  apply IH. now apply step_ok.
Qed.

Lemma padded_not_stored (name : string) (l : list string) :
  names_ok l -> strip name <> name -> ~ In name l.
Proof.
  intros [Ht _] Hne Hin. rewrite List.Forall_forall in Ht.
  exact (Hne (Ht _ Hin)).
Qed.

Lemma padded_category (user name : string) (db : gmap string row) :
  db_ok db ->
  strip name <> name ->
  In (strip name) (stored_categories user db) ->
  remove_category user name db = (db, Ok tt)
  /\ add_category user name db = (db, Ok tt)
  /\ (forall n' : string,
        In (strip name)
          (stored_categories user (fst (remove_category user n' db)))
        <-> n' <> strip name).
Proof.
  intros Hdb Hne Hin. unfold SettingsManager.stored_categories in Hin.
  destruct (db !! user) as [r|] eqn:E; [|destruct Hin].
  destruct (Hdb _ _ E) as [Hc _].
  assert (Hr : forall n', exists r' : row,
             db !! user = Some r' /\
             remove_category user n' db
             = (if py_in n' (json_loads (row_categories json r'))
                then _update_field user FCategories
                       (list_remove n' (json_loads (row_categories json r')))
                       db
                else db, Ok tt)).
  { intros n'. destruct (remove_category_eq user n' db) as [r' H].
    rewrite (ensure_row_present _ _ _ E) in H. now exists r'. }
  split; [|split].
  - destruct (Hr name) as [r' [Hr' ->]]. rewrite E in Hr'.
    injection Hr' as <-.
    now rewrite (proj2 (py_in_false _ _) (padded_not_stored _ _ Hc Hne)).
  - destruct (string_dec (strip name) "") as [Eb|Eb].
    + now apply add_category_blank.
    + destruct (add_category_eq user name db Eb) as [r' [Hr' ->]].
      rewrite (ensure_row_present _ _ _ E) in *. rewrite E in Hr'.
      injection Hr' as <-.
      now rewrite (proj2 (py_in_iff _ _) Hin).
  - intros n'. destruct (Hr n') as [r' [Hr' ->]]. rewrite E in Hr'.
    injection Hr' as <-. simpl.
    destruct (py_in n' _) eqn:Ein.
    + rewrite (stored_categories_update _ _ _ _ E). split.
      * intros H ->. exact (list_remove_gone _ _ (proj2 Hc) H).
      * intros H. apply list_remove_other; [congruence | exact Hin].
    + unfold SettingsManager.stored_categories. rewrite E.
      apply py_in_false in Ein. split; [|trivial].
      intros _ ->. exact (Ein Hin).
Qed.

Lemma padded_account (user name : string) (db : gmap string row) :
  db_ok db ->
  strip name <> name ->
  In (strip name) (stored_accounts user db) ->
  remove_account user name db = (db, Ok tt)
  /\ add_account user name db = (db, Ok tt)
  /\ (forall n' : string,
        In (strip name)
          (stored_accounts user (fst (remove_account user n' db)))
        <-> n' <> strip name).
Proof.
  intros Hdb Hne Hin. unfold SettingsManager.stored_accounts in Hin.
  destruct (db !! user) as [r|] eqn:E; [|destruct Hin].
  destruct (Hdb _ _ E) as [_ Hc].
  assert (Hr : forall n', exists r' : row,
             db !! user = Some r' /\
             remove_account user n' db
             = (if py_in n' (json_loads (row_accounts json r'))
                then _update_field user FAccounts
                       (list_remove n' (json_loads (row_accounts json r')))
                       db
                else db, Ok tt)).
  { intros n'. destruct (remove_account_eq user n' db) as [r' H].
    rewrite (ensure_row_present _ _ _ E) in H. now exists r'. }
  split; [|split].
  - destruct (Hr name) as [r' [Hr' ->]]. rewrite E in Hr'.
    injection Hr' as <-.
    now rewrite (proj2 (py_in_false _ _) (padded_not_stored _ _ Hc Hne)).
  - destruct (string_dec (strip name) "") as [Eb|Eb].
    + now apply add_account_blank.
    + destruct (add_account_eq user name db Eb) as [r' [Hr' ->]].
      rewrite (ensure_row_present _ _ _ E) in *. rewrite E in Hr'.
      injection Hr' as <-.
      now rewrite (proj2 (py_in_iff _ _) Hin).
  - intros n'. destruct (Hr n') as [r' [Hr' ->]]. rewrite E in Hr'.
    injection Hr' as <-. simpl.
    destruct (py_in n' _) eqn:Ein.
    + rewrite (stored_accounts_update _ _ _ _ E). split.
      * intros H ->. exact (list_remove_gone _ _ (proj2 Hc) H).
      * intros H. apply list_remove_other; [congruence | exact Hin].
    + unfold SettingsManager.stored_accounts. rewrite E.
      apply py_in_false in Ein. split; [|trivial].
      intros _ ->. exact (Ein Hin).
Qed.

(** What adding a padded name stores: its stripped form. *)
Lemma add_category_stores_stripped (user name : string)
    (db : gmap string row) :
  strip name <> "" ->
  In (strip name) (stored_categories user (fst (add_category user name db))).
Proof.
  intros Hn. destruct (add_category_eq user name db Hn) as [r [Hr ->]].
  simpl. destruct (py_in _ _) eqn:Ein.
  - unfold SettingsManager.stored_categories. rewrite Hr.
    now apply py_in_iff.
  - rewrite (stored_categories_update _ _ _ _ Hr).
    apply in_or_app. right. now left.
Qed.

Lemma add_account_stores_stripped (user name : string)
    (db : gmap string row) :
  strip name <> "" ->
  In (strip name) (stored_accounts user (fst (add_account user name db))).
Proof.
  intros Hn. destruct (add_account_eq user name db Hn) as [r [Hr ->]].
  simpl. destruct (py_in _ _) eqn:Ein.
  - unfold SettingsManager.stored_accounts. rewrite Hr.
    now apply py_in_iff.
  - rewrite (stored_accounts_update _ _ _ _ Hr).
    apply in_or_app. right. now left.
Qed.

(** C10. Whatever characters [str.strip] takes for white space, as long
    as stripping twice is stripping once and the default categories are
    stripped already: in every store that calls of this module reach from
    an empty table, the add operations store the stripped name; for a name
    that stripping changes and whose stripped form is in the stored list,
    removing that name and adding that name both leave the store as it
    is; and a removal takes the stripped form out of the list exactly when
    it is given the stripped form itself.  Categories and accounts
    alike. *)
Theorem padded_name_removed_only_by_stripped_form
    (ops : list op) (user name : string) :
  strip name <> name ->
  (strip name <> "" ->
   In (strip name)
     (stored_categories user (fst (add_category user name (run ops))))
   /\ In (strip name)
        (stored_accounts user (fst (add_account user name (run ops)))))
  /\ (In (strip name) (stored_categories user (run ops)) ->
      remove_category user name (run ops) = (run ops, Ok tt)
      /\ add_category user name (run ops) = (run ops, Ok tt)
      /\ (forall n' : string,
            In (strip name)
              (stored_categories user
                 (fst (remove_category user n' (run ops))))
            <-> n' <> strip name))
  /\ (In (strip name) (stored_accounts user (run ops)) ->
      remove_account user name (run ops) = (run ops, Ok tt)
      /\ add_account user name (run ops) = (run ops, Ok tt)
      /\ (forall n' : string,
            In (strip name)
              (stored_accounts user
                 (fst (remove_account user n' (run ops))))
            <-> n' <> strip name)).
Proof.
  intros Hne. split; [|split].
  - intros Hn. split;
      [now apply add_category_stores_stripped
      |now apply add_account_stores_stripped].
  - now apply padded_category; [apply run_ok|].
  - now apply padded_account; [apply run_ok|].
Qed.

End WithJson.

(** The instance used below: the list itself stands for its JSON text. *)
Lemma plain_roundtrip (l : list string) :
  (fun x : list string => x) ((fun x : list string => x) l) = l.
Proof. reflexivity. Qed.

(** C8 on an empty table. *)
Lemma get_settings_defaults_for_new_user_witness :
  snd (get_settings (list string) (fun l => l) (fun l => l) "keven"
         (init_db (list string)))
  = Ok (mk_settings
          ["Alimentação"; "Transporte"; "Hospedagem"; "Lazer"; "Compras";
           "Outros"]
          [] None).
Proof.
  rewrite (get_settings_defaults_for_new_user (list string)
             (fun l => l) (fun l => l) plain_roundtrip "keven"
             (init_db (list string)) eq_refl).
  reflexivity.
Defined.

(** C9 on an empty table. *)
Lemma set_monthly_budget_without_row_witness :
  set_monthly_budget (list string) "keven" (Some 1000%Q)
    (init_db (list string))
  = init_db (list string).
Proof.
  exact (proj1 (set_monthly_budget_without_row (list string)
                  (fun l => l) (fun l => l) "keven" (Some 1000%Q)
                  (init_db (list string)) eq_refl)).
Defined.

Lemma ascii_defaults_stripped :
  List.Forall (fun n => Py.ascii_strip n = n) DEFAULT_CATEGORIES.
Proof. repeat constructor. Qed.

(** C10 with white space read as the ASCII one, after
    [add_category("u", " Praia ")]: the padded name neither removes nor
    adds anything, the stripped one removes the entry. *)
Lemma padded_name_removed_only_by_stripped_form_witness :
  let db :=
    run (list string) (fun l => l) (fun l => l) Py.ascii_strip
      [OpAddCategory "u" " Praia "] in
  remove_category (list string) (fun l => l) (fun l => l) "u" " Praia " db
  = (db, Ok tt)
  /\ add_category (list string) (fun l => l) (fun l => l) Py.ascii_strip
       "u" " Praia " db
     = (db, Ok tt)
  /\ (In "Praia"
        (stored_categories (list string) (fun l => l) "u"
           (fst (remove_category (list string) (fun l => l) (fun l => l)
                   "u" "Praia" db)))
      <-> "Praia" <> "Praia").
Proof.
  intros db.
  assert (Hne : Py.ascii_strip " Praia " <> " Praia ") by discriminate.
  assert (Hin : In (Py.ascii_strip " Praia ")
                  (stored_categories (list string) (fun l => l) "u" db)).
  { vm_compute. do 6 right. left. reflexivity. }
  destruct (padded_name_removed_only_by_stripped_form (list string)
              (fun l => l) (fun l => l) Py.ascii_strip PyFacts.strip_idem
              ascii_defaults_stripped plain_roundtrip
              [OpAddCategory "u" " Praia "] "u" " Praia " Hne)
    as [_ [Hc _]].
  destruct (Hc Hin) as [H1 [H2 H3]].
  split; [exact H1|]. split; [exact H2|]. exact (H3 "Praia").
Defined.

End SettingsFacts.

(** * Further properties *)

(** ** Registration and login *)

Module AuthExtras.
Import Auth.

Section WithHash.

Variable strip : string -> string.
Variable lower : string -> string.
Variable sha256_hexdigest : string -> string.
Variable _SALT : string.

Local Abbreviation _hash := (_hash sha256_hexdigest _SALT).
Local Abbreviation create_user :=
  (create_user strip lower sha256_hexdigest _SALT).
Local Abbreviation verify_user :=
  (verify_user strip lower sha256_hexdigest _SALT).
Local Abbreviation later := (later strip lower sha256_hexdigest _SALT).
Local Abbreviation emails_ok := (Login.emails_ok strip lower).
Local Abbreviation login_click :=
  (Login.login_click strip lower sha256_hexdigest _SALT).
Local Abbreviation register_click :=
  (Login.register_click strip lower sha256_hexdigest _SALT).

Lemma create_user_emails_ok (now e p : string) (db : users_table) :
  emails_ok db -> emails_ok (fst (create_user now e p db)).
Proof.
  intros [Hn Hf].
  destruct (AuthFacts.create_user_cases strip lower sha256_hexdigest _SALT
              now e p db)
    as [[-> _]|[[-> _]|[-> [Hk [_ Hnew]]]]]; simpl; try (now split).
  unfold Login.emails_ok, list_users in *. simpl. rewrite map_app. simpl. split.
  - now apply ListFacts.nodup_snoc.
  - apply Forall_app. split; [exact Hf|].
    constructor; [|constructor]. split; [exact Hk|].
    now exists e.
Qed.

(** X1. Whatever [str.strip] and [str.lower] do to the text,
    [create_user] is accepted exactly when the normalised e-mail and the
    password are not empty and the normalised e-mail is not listed yet;
    then the list of users grows by that e-mail, at its end; a refused
    call leaves the table as it was. *)
Theorem create_user_accepts_iff
    (now e p : string) (db : users_table) :
  (snd (create_user now e p db) = Ok tt
   <-> lower (strip e) <> "" /\ p <> ""
       /\ ~ In (lower (strip e)) (list_users db))
  /\ (snd (create_user now e p db) = Ok tt ->
      list_users (fst (create_user now e p db))
      = list_users db ++ [lower (strip e)])
  /\ (snd (create_user now e p db) <> Ok tt ->
      fst (create_user now e p db) = db).
Proof.
  destruct (AuthFacts.create_user_cases strip lower sha256_hexdigest _SALT
              now e p db)
    as [[-> [H|H]]|[[-> [Hk [Hp Hin]]]|[-> [Hk [Hp Hn]]]]]; simpl.
  - split; [split; [discriminate | now intros [? _]]|].
    split; [discriminate | reflexivity].
  - split; [split; [discriminate | now intros [_ [? _]]]|].
    split; [discriminate | reflexivity].
  - split; [split; [discriminate | now intros [_ [_ ?]]]|].
    split; [discriminate | reflexivity].
  - split; [split; [now intros _ | reflexivity]|].
    split; [|now intros []]. intros _.
    unfold list_users. simpl. now rewrite map_app.
Qed.

(** X2. In every table that registrations build from an empty one, the
    listed e-mails are pairwise distinct, none is empty, and each is the
    normal form (stripped, then lower-cased) of a text that was given to
    [create_user]. *)
Theorem registered_emails_distinct_normalized (db : users_table) :
  later init_db db -> emails_ok db.
Proof.
  induction 1 as [|db1 now e p _ IH].
  - split; constructor.
  - now apply create_user_emails_ok.
Qed.

(** X3. After the "Cadastrar" button reports success, the two password
    boxes held the same text, and from then on the "Entrar" button with
    that e-mail and password logs in: the session holds the normalised
    e-mail, which the table lists. *)
Theorem register_then_login
    (now e p p2 msg : string) (db db' db'' : users_table)
    (session : option string) :
  register_click now e p p2 db = (db', Login.Success msg) ->
  later db' db'' ->
  p2 = p
  /\ fst (login_click e p db'' session) = Some (lower (strip e))
  /\ In (lower (strip e)) (list_users db'').
Proof.
  unfold Login.register_click. intros H Hl.
  destruct (String.eqb_spec p p2) as [<-|Hne]; simpl in H; [|discriminate].
  destruct (create_user now e p db) as [db1 [[]|[m|m]]] eqn:E;
    try discriminate.
  injection H as <- _.
  destruct (AuthFacts.create_user_registers _ _ _ _ _ _ _ _ _ E)
    as [Hp [Hk [_ Hs]]].
  apply (AuthFacts.later_keeps_hash _ _ _ _ _ _ _ _ Hl) in Hs.
  split; [reflexivity|]. split.
  - unfold Login.login_click.
    rewrite (AuthFacts.verify_user_of_hash _ _ _ _ _ _ _ _ Hk Hs).
    apply PyFacts.not_str_false in Hp. rewrite Hp, String.eqb_refl.
    reflexivity.
  - destruct (in_dec string_dec (lower (strip e)) (list_users db''))
      as [Hin|Hn]; [exact Hin|].
    apply AuthFacts.select_none_iff in Hn. congruence.
Qed.

(** X4. Whatever the table, the "Entrar" button puts into the session
    only an e-mail that the table lists, in normal form; when it reports
    an error the session is left as it was. *)
Theorem login_click_only_registered
    (e p : string) (db : users_table) (session : option string) :
  match login_click e p db session with
  | (s, Login.Success _) =>
      s = Some (lower (strip e))
      /\ In (lower (strip e)) (list_users db)
      /\ p <> ""
  | (s, _) => s = session
  end.
Proof.
  unfold Login.login_click.
  destruct (verify_user e p db) eqn:E; [|reflexivity].
  split; [reflexivity|]. split.
  - destruct (in_dec string_dec (lower (strip e)) (list_users db))
      as [Hin|Hn]; [exact Hin|].
    rewrite (AuthFacts.verify_user_unregistered _ _ _ _ _ _ _ Hn) in E.
    discriminate.
  - intros ->. unfold Auth.verify_user in E.
    rewrite orb_true_r in E. discriminate.
Qed.

End WithHash.

(** X2 on the table after one registration, with white space and letters
    read as the ASCII ones. *)
Lemma registered_emails_distinct_normalized_witness :
  Login.emails_ok Py.ascii_strip Py.ascii_lower
    (fst (create_user Py.ascii_strip Py.ascii_lower (fun s : string => s) ""
            "t0" " A@B.com " "pw1" init_db)).
Proof.
  apply (registered_emails_distinct_normalized Py.ascii_strip Py.ascii_lower
           (fun s : string => s) "").
  apply later_step. apply later_refl.
Defined.

(** X3 on a registration of [" A@B.com "]. *)
Lemma register_then_login_witness :
  let sha := fun s : string => s in
  let db1 :=
    fst (Login.register_click Py.ascii_strip Py.ascii_lower sha "" "t0"
           " A@B.com " "pw1" "pw1" init_db) in
  fst (Login.login_click Py.ascii_strip Py.ascii_lower sha "" " A@B.com "
         "pw1" db1 None)
  = Some "a@b.com".
Proof.
  intros sha db1.
  exact (proj1 (proj2 (register_then_login Py.ascii_strip Py.ascii_lower sha
                         "" "t0" " A@B.com " "pw1" "pw1"
                         "Conta criada! Faça login na aba ao lado."
                         init_db db1 db1 None eq_refl
                         (later_refl Py.ascii_strip Py.ascii_lower sha ""
                            db1)))).
Defined.

End AuthExtras.

(** ** Listing, deleting and patching expenses *)

Module DataManagerExtras.
Import DataManager Patch.

Lemma text_le_trans (a b c : string) :
  text_le a b = true -> text_le b c = true -> text_le a c = true.
Proof.
  unfold text_le.
  destruct (String.compare a b) eqn:E1; try discriminate;
    destruct (String.compare b c) eqn:E2; try discriminate; intros _ _.
  - apply String.compare_eq_iff in E1. subst. now rewrite E2.
  - apply String.compare_eq_iff in E1. subst. now rewrite E2.
  - apply String.compare_eq_iff in E2. subst. now rewrite E1.
  - now rewrite (DataManagerFacts.compare_lt_trans _ _ _ E1 E2).
Qed.

Lemma filter_all_false {A : Type} (f : A -> bool) (l : list A) :
  (forall x, In x l -> f x = false) -> List.filter f l = [].
Proof.
  induction l as [|x l IH]; simpl; intros H; [reflexivity|].
  rewrite (H x (or_introl eq_refl)). apply IH. intros y Hy. apply H. now right.
Qed.

Lemma filter_all_true {A : Type} (f : A -> bool) (l : list A) :
  (forall x, In x l -> f x = true) -> List.filter f l = l.
Proof.
  induction l as [|x l IH]; simpl; intros H; [reflexivity|].
  rewrite (H x (or_introl eq_refl)). f_equal. apply IH. intros y Hy.
  apply H. now right.
Qed.

Lemma filter_comm {A : Type} (f g : A -> bool) (l : list A) :
  List.filter f (List.filter g l) = List.filter g (List.filter f l).
Proof.
  induction l as [|x l IH]; simpl; [reflexivity|].
  destruct (f x) eqn:Ef, (g x) eqn:Eg; simpl; rewrite ?Ef, ?Eg, IH;
    reflexivity.
Qed.

(** Sorting and filtering commute: a filter never reorders what the
    ORDER BY produced. *)
Lemma filter_insert_row (p : expense -> bool) (r : expense)
    (l : list expense) :
  StronglySorted date_id_desc l ->
  List.filter p (insert_row r l)
  = if p r then insert_row r (List.filter p l) else List.filter p l.
Proof.
  induction 1 as [|x l Hs IH Hx]; simpl.
  - now destruct (p r).
  - destruct (precedes r x) eqn:E; simpl.
    + destruct (p r) eqn:Er; [|reflexivity].
      assert (Hall : List.Forall (fun y => precedes r y = true) (x :: l)).
      { apply DataManagerFacts.precedes_spec in E. constructor.
        - now apply DataManagerFacts.precedes_spec.
        - rewrite List.Forall_forall in *. intros y Hy.
          apply DataManagerFacts.precedes_spec.
          eapply DataManagerFacts.date_id_desc_trans; [exact E|].
          now apply Hx. }
      change (r :: List.filter p (x :: l)
              = insert_row r (List.filter p (x :: l))).
      destruct (List.filter p (x :: l)) as [|y l'] eqn:F; [reflexivity|].
      simpl. rewrite List.Forall_forall in Hall.
      rewrite (Hall y); [reflexivity|].
      assert (Hy : In y (List.filter p (x :: l))) by (rewrite F; now left).
      now apply filter_In in Hy as [Hy _].
    + rewrite IH. destruct (p x) eqn:Ex, (p r) eqn:Er; simpl;
        rewrite ?E; reflexivity.
Qed.

Lemma order_by_filter (p : expense -> bool) (l : list expense) :
  order_by (List.filter p l) = List.filter p (order_by l).
Proof.
  induction l as [|x l IH]; simpl; [reflexivity|].
  rewrite (filter_insert_row p x (order_by l)
             (DataManagerFacts.order_by_sorted l)).
  destruct (p x); simpl; now rewrite IH.
Qed.

(** X5. [list_expenses] returns the rows of the table that belong to the
    user and pass every filter that was given, and no other: a row is
    listed exactly when it is in the table, its owner is the user, its
    date is within the bounds given, and its category and account are the
    ones given; and each such row is listed as often as the table holds
    it. *)
Theorem list_expenses_exactly_matching
    (user : string) (s e : option date_arg) (c a : option string)
    (db : expenses_table) :
  (forall r : expense,
      In r (list_expenses user s e c a db)
      <-> In r (rows db)
          /\ user_id r = user
          /\ (forall d, s = Some d -> text_le (to_iso d) (date r) = true)
          /\ (forall d, e = Some d -> text_le (date r) (to_iso d) = true)
          /\ (forall x, c = Some x -> category r = x)
          /\ (forall x, a = Some x -> account r = x))
  /\ Permutation (list_expenses user s e c a db)
       (List.filter (matches user s e c a) (rows db)).
Proof.
  split; [|apply DataManagerFacts.order_by_perm].
  intros r. rewrite DataManagerFacts.in_list_expenses. unfold matches.
  rewrite !andb_true_iff, String.eqb_eq.
  split.
  - intros [Hin [[[[Hu Hs] He] Hc] Ha]]. repeat split; trivial.
    + now intros d ->.
    + now intros d ->.
    + intros x ->. now apply String.eqb_eq.
    + intros x ->. now apply String.eqb_eq.
  - intros [Hin [Hu [Hs [He [Hc Ha]]]]]. repeat split; trivial.
    + destruct s; [now apply Hs | reflexivity].
    + destruct e; [now apply He | reflexivity].
    + destruct c; [apply String.eqb_eq; now apply Hc | reflexivity].
    + destruct a; [apply String.eqb_eq; now apply Ha | reflexivity].
Qed.

(** X6. When the start bound is after the end bound (as texts),
    [list_expenses] returns no row and [total_spent] returns 0.0. *)
Theorem empty_range_lists_nothing
    (user : string) (s e : date_arg) (c a : option string)
    (db : expenses_table) :
  String.compare (to_iso s) (to_iso e) = Gt ->
  list_expenses user (Some s) (Some e) c a db = []
  /\ total_spent user (Some s) (Some e) db = double_zero.
Proof.
  intros H.
  assert (Hnone : forall c a,
             List.filter (matches user (Some s) (Some e) c a) (rows db) = []).
  { intros c0 a0. apply filter_all_false. intros r _. unfold matches.
    destruct (text_le (to_iso s) (date r)) eqn:E1;
      [|now rewrite andb_false_r].
    destruct (text_le (date r) (to_iso e)) eqn:E2;
      [|now rewrite !andb_false_r].
    pose proof (text_le_trans _ _ _ E1 E2) as E3. unfold text_le in E3.
    rewrite H in E3. discriminate. }
  unfold list_expenses, total_spent. now rewrite !Hnone.
Qed.

(** X6 with the bounds swapped. *)
Lemma empty_range_lists_nothing_witness :
  list_expenses "u" (Some (PyDate (mk_date 2024 1 31)))
    (Some (PyStr "2024-01-01")) None None
    (run [OpAdd "t0" "u" (PyStr "2024-01-15") 10 "Lazer" "" "Dinheiro"
            None "BRL"])
  = [].
Proof.
  exact (proj1 (empty_range_lists_nothing "u" (PyDate (mk_date 2024 1 31))
                  (PyStr "2024-01-01") None None _ eq_refl)).
Defined.

(** X7. After [delete_expense], every listing is the listing from before
    without the rows that carry both the given id and the given owner:
    the other rows stay, in the same order. *)
Theorem delete_expense_removes_only_target
    (expense_id : Z) (owner user : string) (s e : option date_arg)
    (c a : option string) (db : expenses_table) :
  list_expenses user s e c a (delete_expense expense_id owner db)
  = List.filter (fun r => negb (targets expense_id owner r))
      (list_expenses user s e c a db).
Proof.
  unfold list_expenses, delete_expense. simpl.
  rewrite <- order_by_filter. f_equal. apply filter_comm.
Qed.

(** X8. [delete_expense] with an id that no row of that owner carries (an
    unknown id, or the id of another user's expense) leaves the table as
    it was. *)
Theorem delete_expense_without_match
    (expense_id : Z) (owner : string) (db : expenses_table) :
  (forall r, In r (rows db) -> id r = expense_id -> user_id r <> owner) ->
  delete_expense expense_id owner db = db.
Proof.
  intros H. unfold delete_expense. destruct db as [l n]. simpl in *.
  f_equal. apply filter_all_true. intros r Hr.
  apply negb_true_iff, andb_false_iff.
  destruct (Z.eqb_spec (id r) expense_id) as [Hi|Hi]; [right | now left].
  apply String.eqb_neq. now apply H.
Qed.

(** X8 on another user's expense. *)
Lemma delete_expense_without_match_witness :
  let db1 :=
    run [OpAdd "t0" "u" (PyStr "2024-01-15") 10 "Lazer" "" "Dinheiro"
           None "BRL"] in
  delete_expense 1 "v" db1 = db1.
Proof.
  intros db1. apply delete_expense_without_match.
  intros r [<-|[]] _. discriminate.
Defined.

(** *** The id counter *)

Lemma step_seq_mono (db : expenses_table) (o : op) :
  (seq db <= seq (step db o))%Z.
Proof.
  destruct o as [now u d a c de ac rp cu|now i u fs|i u]; simpl; try lia.
  destruct (DataManagerFacts.fst_update_expense now i u fs db) as [->| ->];
    simpl; lia.
Qed.

Lemma fold_step_seq_mono (ops : list op) (db : expenses_table) :
  (seq db <= seq (fold_left step ops db))%Z.
Proof.
  revert db. induction ops as [|o ops IH]; intros db; simpl; [lia|].
  specialize (IH (step db o)). pose proof (step_seq_mono db o). lia.
Qed.

Lemma fold_step_ids_ok (ops : list op) (db : expenses_table) :
  ids_ok db -> ids_ok (fold_left step ops db).
Proof.
  revert db. induction ops as [|o ops IH]; intros db H; simpl; [exact H|].
  apply IH. now apply DataManagerFacts.step_ids_ok.
Qed.

(** X9. Ids are never used twice: in a table that calls of this module
    built, the id that [add_expense] returns is above the id of every row
    of the table, and every [add_expense] that comes later, whatever was
    inserted, patched or deleted in between, returns a larger id still. *)
Theorem add_expense_id_never_reused
    (ops ops' : list op) (now1 u1 : string) (d1 : date_arg) (a1 : Q)
    (c1 de1 ac1 : string) (rp1 : option string) (cu1 : string)
    (now2 u2 : string) (d2 : date_arg) (a2 : Q)
    (c2 de2 ac2 : string) (rp2 : option string) (cu2 : string) :
  let '(db1, i) := add_expense now1 u1 d1 a1 c1 de1 ac1 rp1 cu1 (run ops) in
  let '(_, j) :=
    add_expense now2 u2 d2 a2 c2 de2 ac2 rp2 cu2 (fold_left step ops' db1) in
  List.Forall (fun r => (id r < i)%Z) (rows (run ops))
  /\ (i < j)%Z
  /\ List.Forall (fun r => (id r < j)%Z) (rows (fold_left step ops' db1)).
Proof.
  simpl.
  match goal with
  | |- context [fold_left step ops' ?d] => set (db1 := d)
  end.
  assert (H0 : ids_ok (run ops)) by apply DataManagerFacts.run_ids_ok.
  assert (H1 : ids_ok db1).
  { exact (DataManagerFacts.step_ids_ok (run ops)
             (OpAdd now1 u1 d1 a1 c1 de1 ac1 rp1 cu1) H0). }
  assert (H2 := fold_step_ids_ok ops' db1 H1).
  assert (Hm := fold_step_seq_mono ops' db1).
  change (seq db1) with (seq (run ops) + 1)%Z in Hm.
  split; [|split].
  - eapply List.Forall_impl; [|exact (proj2 H0)]. simpl. intros r Hr. lia.
  - lia.
  - eapply List.Forall_impl; [|exact (proj2 H2)].
    simpl. intros r Hr. lia.
Qed.

(** *** Patches that are accepted *)

Lemma assign_user_id (f : kwarg) (r : expense) :
  user_id (assign f r) = user_id r.
Proof.
  destruct f as [k v]. unfold assign. revert v. unfold kwarg_type.
  destruct (column_of k) as [c|]; [|reflexivity]. now destruct c.
Qed.

Lemma assign_created_at (f : kwarg) (r : expense) :
  created_at (assign f r) = created_at r.
Proof.
  destruct f as [k v]. unfold assign. revert v. unfold kwarg_type.
  destruct (column_of k) as [c|]; [|reflexivity]. now destruct c.
Qed.

Lemma fold_assign_frame (fields : list kwarg) (r : expense) :
  let r' := fold_left (fun r f => assign f r) fields r in
  id r' = id r /\ user_id r' = user_id r /\ created_at r' = created_at r.
Proof.
  revert r. induction fields as [|f fields IH]; intros r; simpl;
    [repeat split|].
  destruct (IH (assign f r)) as [H1 [H2 H3]].
  rewrite H1, H2, H3.
  now rewrite DataManagerFacts.assign_id, assign_user_id, assign_created_at.
Qed.







(** *** One user's calls and another user's rows *)

Lemma matches_owner (v : string) (s e : option date_arg)
    (c a : option string) (r : expense) :
  user_id r <> v -> matches v s e c a r = false.
Proof.
  intros H. unfold matches.
  now rewrite (proj2 (String.eqb_neq _ _) H).
Qed.

Lemma matches_true_owner (v : string) (s e : option date_arg)
    (c a : option string) (r : expense) :
  matches v s e c a r = true -> user_id r = v.
Proof.
  unfold matches. rewrite !andb_true_iff, String.eqb_eq. tauto.
Qed.

Lemma targets_owner (i : Z) (u : string) (r : expense) :
  targets i u r = true -> user_id r = u.
Proof.
  unfold targets. rewrite andb_true_iff, String.eqb_eq. tauto.
Qed.

Lemma filter_map_fixed {A : Type} (f : A -> bool) (g : A -> A)
    (l : list A) :
  (forall x, In x l -> g x = x \/ (f x = false /\ f (g x) = false)) ->
  List.filter f (map g l) = List.filter f l.
Proof.
  induction l as [|x l IH]; simpl; intros H; [reflexivity|].
  rewrite IH by (intros y Hy; apply H; now right).
  destruct (H x (or_introl eq_refl)) as [->|[-> ->]]; reflexivity.
Qed.

Lemma filter_filter_absorb {A : Type} (f g : A -> bool) (l : list A) :
  (forall x, In x l -> f x = true -> g x = true) ->
  List.filter f (List.filter g l) = List.filter f l.
Proof.
  induction l as [|x l IH]; simpl; intros H; [reflexivity|].
  specialize (IH (fun y Hy => H y (or_intror Hy))).
  destruct (g x) eqn:Eg; simpl.
  - now rewrite IH.
  - rewrite IH. destruct (f x) eqn:Ef; [|reflexivity].
    rewrite (H x (or_introl eq_refl) Ef) in Eg. discriminate.
Qed.

Lemma step_keeps_other_rows (db : expenses_table) (o : op) (v : string)
    (s e : option date_arg) (c a : option string) :
  op_user o <> v ->
  List.filter (matches v s e c a) (rows (step db o))
  = List.filter (matches v s e c a) (rows db).
Proof.
  intros Hne. destruct o as [now u d x ca de ac rp cu|now i u fs|i u];
    simpl in *.
  - rewrite List.filter_app. simpl.
    rewrite (matches_owner v s e c a); [apply app_nil_r | exact Hne].
  - destruct (DataManagerFacts.fst_update_expense now i u fs db)
      as [->| ->]; [reflexivity|].
    simpl. apply filter_map_fixed. intros r _.
    fold (targets i u r). destruct (targets i u r) eqn:Et; [right | now left].
    apply targets_owner in Et.
    split; apply matches_owner; [congruence|].
    change (user_id (fold_left (fun r f => assign f r) fs r) <> v).
    rewrite (proj1 (proj2 (fold_assign_frame fs r))). congruence.
  - apply filter_filter_absorb. intros r _ Hm.
    apply matches_true_owner in Hm. apply negb_true_iff.
    destruct (Z.eqb (id r) i); [|reflexivity]. simpl.
    apply String.eqb_neq. congruence.
Qed.

(** X13. No call made for one user touches what another user sees:
    after an [add_expense], [update_expense] or [delete_expense] of user
    [u], every listing and every total of a user [v] other than [u] is
    what it was. *)
Theorem other_users_unaffected
    (db : expenses_table) (o : op) (v : string) (s e : option date_arg)
    (c a : option string) :
  op_user o <> v ->
  list_expenses v s e c a (step db o) = list_expenses v s e c a db
  /\ total_spent v s e (step db o) = total_spent v s e db.
Proof.
  intros H. unfold list_expenses, total_spent.
  now rewrite !(step_keeps_other_rows db o v) by exact H.
Qed.

(** X13 on a deletion that names another user's id. *)
Lemma other_users_unaffected_witness :
  let db1 :=
    run [OpAdd "t0" "v" (PyStr "2024-01-15") 10 "Lazer" "" "Dinheiro"
           None "BRL"] in
  list_expenses "v" None None None None (step db1 (OpDelete 1 "u"))
  = list_expenses "v" None None None None db1.
Proof.
  intros db1.
  assert (H : op_user (OpDelete 1 "u") <> "v") by discriminate.
  exact (proj1 (other_users_unaffected db1 (OpDelete 1 "u") "v"
                  None None None None H)).
Defined.

(** *** Totals *)


(** *** Dates as texts *)

(** X15. The ISO texts of two dates compare as the dates do: the text of
    [d1] is at most the text of [d2] exactly when [d1] is not after [d2],
    and two dates with the same text are the same date.  So the bounds
    and the ORDER BY of the store, which compare TEXT cells, follow the
    calendar for dates written by [isoformat]. *)
Theorem isoformat_keeps_date_order (d1 d2 : date_type) :
  date_fits d1 -> date_fits d2 ->
  (text_le (to_iso (PyDate d1)) (to_iso (PyDate d2)) = true
   <-> date_le d1 d2)
  /\ (to_iso (PyDate d1) = to_iso (PyDate d2) -> d1 = d2).
Proof.
  intros H1 H2. simpl. split.
  - unfold text_le, date_le.
    rewrite (DataManagerFacts.compare_isoformat _ _ H1 H2).
    destruct (Nat.compare_spec (year d1) (year d2));
      [destruct (Nat.compare_spec (month d1) (month d2));
       [destruct (Nat.compare_spec (day d1) (day d2))| |]| |];
      split; try reflexivity; try discriminate; lia.
  - intros E.
    assert (C : String.compare (isoformat d1) (isoformat d2) = Eq)
      by (rewrite E; apply DataManagerFacts.compare_refl).
    rewrite (DataManagerFacts.compare_isoformat _ _ H1 H2) in C.
    destruct d1 as [y1 m1 dd1], d2 as [y2 m2 dd2]. simpl in C.
    destruct (Nat.compare_spec y1 y2); try discriminate.
    destruct (Nat.compare_spec m1 m2); try discriminate.
    destruct (Nat.compare_spec dd1 dd2); try discriminate.
    congruence.
Qed.

(** X15 across a change of year. *)
Lemma isoformat_keeps_date_order_witness :
  text_le (to_iso (PyDate (mk_date 2023 12 31)))
    (to_iso (PyDate (mk_date 2024 1 1))) = true.
Proof.
  assert (H1 : date_fits (mk_date 2023 12 31)) by (unfold date_fits; simpl; lia).
  assert (H2 : date_fits (mk_date 2024 1 1)) by (unfold date_fits; simpl; lia).
  apply (proj1 (isoformat_keeps_date_order _ _ H1 H2)).
  left. simpl. lia.
Defined.

End DataManagerExtras.

(** ** Settings: composition of the operations *)

Module SettingsExtras.
Import SettingsManager.

Lemma list_remove_last (x : string) (l : list string) :
  ~ In x l -> list_remove x (l ++ [x]) = l.
Proof.
  induction l as [|y l IH]; simpl; intros H.
  - now rewrite String.eqb_refl.
  - destruct (String.eqb_spec y x) as [->|Hne]; [exfalso; apply H; now left|].
    f_equal. apply IH. intros Hin. apply H. now right.
Qed.

Section WithJson.

Variable json : Type.
Variable json_dumps : list string -> json.
Variable json_loads : json -> list string.
Variable strip : string -> string.

Local Abbreviation row := (settings_row json).
Local Abbreviation _ensure_row := (_ensure_row json json_dumps).
Local Abbreviation get_settings := (get_settings json json_dumps json_loads).
Local Abbreviation _update_field := (_update_field json json_dumps).
Local Abbreviation add_category :=
  (add_category json json_dumps json_loads strip).
Local Abbreviation remove_category :=
  (remove_category json json_dumps json_loads).
Local Abbreviation add_account :=
  (add_account json json_dumps json_loads strip).
Local Abbreviation remove_account :=
  (remove_account json json_dumps json_loads).
Local Abbreviation set_monthly_budget := (set_monthly_budget json).
Local Abbreviation get_monthly_budget :=
  (get_monthly_budget json json_dumps json_loads).
Local Abbreviation stored_categories := (stored_categories json json_loads).
Local Abbreviation stored_accounts := (stored_accounts json json_loads).
Local Abbreviation db_ok := (db_ok json json_loads strip).
Local Abbreviation run := (run json json_dumps json_loads strip).
Local Abbreviation step := (step json json_dumps json_loads strip).

(** What the invariant of the stored lists needs of [str.strip]. *)
Hypothesis strip_idem : forall s : string, strip (strip s) = strip s.
Hypothesis defaults_stripped :
  List.Forall (fun n => strip n = n) DEFAULT_CATEGORIES.

Hypothesis json_roundtrip : forall l : list string, json_loads (json_dumps l) = l.

Lemma stored_categories_row (u x : string) (db : gmap string row) :
  In x (stored_categories u db) ->
  exists r : row,
    db !! u = Some r /\ stored_categories u db = json_loads (row_categories json r).
Proof.
  unfold SettingsManager.stored_categories.
  destruct (db !! u) as [r|]; [|intros []]. intros _. now exists r.
Qed.

Lemma add_category_twice (u n : string) (db : gmap string row) :
  fst (add_category u n (fst (add_category u n db)))
  = fst (add_category u n db).
Proof.
  destruct (string_dec (strip n) "") as [E|E].
  - now rewrite !(SettingsFacts.add_category_blank _ _ _ _ _ _ _ E).
  - pose proof (SettingsFacts.add_category_stores_stripped
                  _ _ _ _ json_roundtrip u n db E) as Hin.
    set (db1 := fst (add_category u n db)) in *.
    apply stored_categories_row in Hin as [r1 [Hr1 Hs]].
    destruct (SettingsFacts.add_category_eq _ json_dumps json_loads strip u n
                db1 E)
      as [r [Hr ->]].
    rewrite (SettingsFacts.ensure_row_present _ _ _ _ _ Hr1) in *.
    rewrite Hr1 in Hr. injection Hr as <-. simpl.
    pose proof (SettingsFacts.add_category_stores_stripped
                  _ _ _ _ json_roundtrip u n db E) as Hin.
    fold db1 in Hin. rewrite Hs in Hin.
    now rewrite (proj2 (SettingsFacts.py_in_iff _ _) Hin).
Qed.

Lemma add_category_once (ops : list op) (u n : string) :
  strip n <> "" ->
  count_occ string_dec
    (stored_categories u (fst (add_category u n (run ops)))) (strip n)
  = 1%nat.
Proof.
  intros E.
  pose proof (SettingsFacts.add_category_stores_stripped
                _ _ _ _ json_roundtrip u n (run ops) E) as Hin.
  assert (Hok : db_ok (fst (add_category u n (run ops)))).
  { apply (SettingsFacts.step_ok _ _ _ _ strip_idem defaults_stripped
             json_roundtrip (run ops)
             (OpAddCategory u n)).
    apply (SettingsFacts.run_ok _ _ _ _ strip_idem defaults_stripped
             json_roundtrip). }
  destruct (stored_categories_row _ _ _ Hin) as [r [Hr Hs]].
  rewrite Hs in *. destruct (Hok _ _ Hr) as [[_ Hn] _].
  now apply (proj1 (NoDup_count_occ' string_dec _) Hn).
Qed.

Lemma remove_after_add_category (u n : string) (db : gmap string row) :
  strip n <> "" ->
  ~ In (strip n) (stored_categories u (fst (get_settings u db))) ->
  stored_categories u
    (fst (remove_category u (strip n) (fst (add_category u n db))))
  = stored_categories u (fst (get_settings u db)).
Proof.
  intros E Hn.
  destruct (SettingsFacts.get_settings_ok _ json_dumps json_loads u db)
    as [r0 [Hr0 Hg]].
  rewrite Hg in *. simpl in Hn |- *.
  destruct (SettingsFacts.add_category_eq _ json_dumps json_loads strip u n
              db E)
    as [r [Hr ->]].
  rewrite Hr0 in Hr. injection Hr as <-.
  unfold SettingsManager.stored_categories in Hn |- * at 2.
  rewrite Hr0 in *.
  rewrite (proj2 (SettingsFacts.py_in_false _ _) Hn). simpl.
  set (l := json_loads (row_categories json r0)) in *.
  set (db1 := _update_field u FCategories (l ++ [strip n])
                (_ensure_row u db)).
  assert (H1 : exists r1, db1 !! u = Some r1
                          /\ json_loads (row_categories json r1)
                             = l ++ [strip n]).
  { unfold db1, SettingsManager._update_field.
    rewrite lookup_alter_eq, Hr0. simpl. eexists. split; [reflexivity|].
    simpl. apply json_roundtrip. }
  destruct H1 as [r1 [Hr1 Hl1]].
  destruct (SettingsFacts.remove_category_eq _ json_dumps json_loads
              u (strip n) db1) as [r2 [Hr2 ->]].
  rewrite (SettingsFacts.ensure_row_present _ _ _ _ _ Hr1) in *.
  rewrite Hr1 in Hr2. injection Hr2 as <-. rewrite Hl1. simpl.
  assert (Hin : In (strip n) (l ++ [strip n]))
    by (apply in_or_app; right; now left).
  rewrite (proj2 (SettingsFacts.py_in_iff _ _) Hin).
  rewrite (SettingsFacts.stored_categories_update _ _ _ json_roundtrip
             _ _ _ _ Hr1).
  now apply list_remove_last.
Qed.

Lemma save_click_category (u item new_name : string)
    (db : gmap string row) :
  In item (stored_categories u db) ->
  new_name <> item ->
  stored_categories u
    (fst (Configuracoes.save_click (gmap string row) add_category
            remove_category u item new_name db))
  = let l := list_remove item (stored_categories u db) in
    if Py.not_str (strip new_name) || py_in (strip new_name) l
    then l else l ++ [strip new_name].
Proof.
  intros Hin Hne. unfold Configuracoes.save_click.
  rewrite (proj2 (String.eqb_neq _ _) Hne). simpl.
  destruct (stored_categories_row _ _ _ Hin) as [r [Hr Hs]].
  rewrite Hs in *.
  destruct (SettingsFacts.remove_category_eq _ json_dumps json_loads
              u item db) as [r' [Hr' ->]].
  rewrite (SettingsFacts.ensure_row_present _ _ _ _ _ Hr) in *.
  rewrite Hr in Hr'. injection Hr' as <-.
  rewrite (proj2 (SettingsFacts.py_in_iff _ _) Hin).
  set (l := list_remove item (json_loads (row_categories json r))).
  set (db1 := _update_field u FCategories l db).
  assert (H1 : exists r1, db1 !! u = Some r1
                          /\ json_loads (row_categories json r1) = l).
  { unfold db1, SettingsManager._update_field.
    rewrite lookup_alter_eq, Hr. simpl. eexists. split; [reflexivity|].
    simpl. apply json_roundtrip. }
  destruct H1 as [r1 [Hr1 Hl1]].
  assert (Hs1 : stored_categories u db1 = l).
  { unfold SettingsManager.stored_categories. now rewrite Hr1. }
  destruct (Py.not_str (strip new_name)) eqn:Eb; simpl.
  - apply PyFacts.not_str_true in Eb.
    now rewrite (SettingsFacts.add_category_blank _ _ _ _ _ _ _ Eb).
  - apply PyFacts.not_str_false in Eb.
    destruct (SettingsFacts.add_category_eq _ json_dumps json_loads strip
                u new_name db1 Eb) as [r2 [Hr2 ->]].
    rewrite (SettingsFacts.ensure_row_present _ _ _ _ _ Hr1) in *.
    rewrite Hr1 in Hr2. injection Hr2 as <-. rewrite Hl1.
    destruct (py_in (strip new_name) l); simpl; [exact Hs1|].
    apply (SettingsFacts.stored_categories_update _ _ _ json_roundtrip
             _ _ _ _ Hr1).
Qed.

Lemma remove_category_new_user (u n : string) (db : gmap string row) :
  db !! u = None ->
  stored_categories u (fst (remove_category u n db))
  = (if py_in n DEFAULT_CATEGORIES
     then list_remove n DEFAULT_CATEGORIES else DEFAULT_CATEGORIES)
  /\ stored_accounts u (fst (remove_category u n db)) = DEFAULT_ACCOUNTS.
Proof.
  intros H.
  destruct (SettingsFacts.remove_category_eq _ json_dumps json_loads u n db)
    as [r [Hr ->]].
  rewrite (SettingsFacts.ensure_row_absent _ _ _ _ H) in *.
  set (dc := DEFAULT_CATEGORIES) in *. set (da := DEFAULT_ACCOUNTS) in *.
  clearbody dc da.
  rewrite lookup_insert_eq in Hr. injection Hr as <-. simpl.
  rewrite !json_roundtrip.
  unfold SettingsManager.stored_categories, SettingsManager.stored_accounts,
    SettingsManager._update_field.
  destruct (py_in n dc).
  - rewrite lookup_alter_eq, lookup_insert_eq. simpl.
    now rewrite !json_roundtrip.
  - rewrite lookup_insert_eq. simpl. now rewrite !json_roundtrip.
Qed.

Lemma stored_accounts_row (u x : string) (db : gmap string row) :
  In x (stored_accounts u db) ->
  exists r : row,
    db !! u = Some r /\ stored_accounts u db = json_loads (row_accounts json r).
Proof.
  unfold SettingsManager.stored_accounts.
  destruct (db !! u) as [r|]; [|intros []]. intros _. now exists r.
Qed.

Lemma add_account_twice (u n : string) (db : gmap string row) :
  fst (add_account u n (fst (add_account u n db)))
  = fst (add_account u n db).
Proof.
  destruct (string_dec (strip n) "") as [E|E].
  - now rewrite !(SettingsFacts.add_account_blank _ _ _ _ _ _ _ E).
  - pose proof (SettingsFacts.add_account_stores_stripped
                  _ _ _ _ json_roundtrip u n db E) as Hin.
    set (db1 := fst (add_account u n db)) in *.
    apply stored_accounts_row in Hin as [r1 [Hr1 Hs]].
    destruct (SettingsFacts.add_account_eq _ json_dumps json_loads strip u n
                db1 E)
      as [r [Hr ->]].
    rewrite (SettingsFacts.ensure_row_present _ _ _ _ _ Hr1) in *.
    rewrite Hr1 in Hr. injection Hr as <-. simpl.
    pose proof (SettingsFacts.add_account_stores_stripped
                  _ _ _ _ json_roundtrip u n db E) as Hin.
    fold db1 in Hin. rewrite Hs in Hin.
    now rewrite (proj2 (SettingsFacts.py_in_iff _ _) Hin).
Qed.

Lemma add_account_once (ops : list op) (u n : string) :
  strip n <> "" ->
  count_occ string_dec
    (stored_accounts u (fst (add_account u n (run ops)))) (strip n)
  = 1%nat.
Proof.
  intros E.
  pose proof (SettingsFacts.add_account_stores_stripped
                _ _ _ _ json_roundtrip u n (run ops) E) as Hin.
  assert (Hok : db_ok (fst (add_account u n (run ops)))).
  { apply (SettingsFacts.step_ok _ _ _ _ strip_idem defaults_stripped
             json_roundtrip (run ops)
             (OpAddAccount u n)).
    apply (SettingsFacts.run_ok _ _ _ _ strip_idem defaults_stripped
             json_roundtrip). }
  destruct (stored_accounts_row _ _ _ Hin) as [r [Hr Hs]].
  rewrite Hs in *. destruct (Hok _ _ Hr) as [_ [_ Hn]].
  now apply (proj1 (NoDup_count_occ' string_dec _) Hn).
Qed.

Lemma remove_after_add_account (u n : string) (db : gmap string row) :
  strip n <> "" ->
  ~ In (strip n) (stored_accounts u (fst (get_settings u db))) ->
  stored_accounts u
    (fst (remove_account u (strip n) (fst (add_account u n db))))
  = stored_accounts u (fst (get_settings u db)).
Proof.
  intros E Hn.
  destruct (SettingsFacts.get_settings_ok _ json_dumps json_loads u db)
    as [r0 [Hr0 Hg]].
  rewrite Hg in *. simpl in Hn |- *.
  destruct (SettingsFacts.add_account_eq _ json_dumps json_loads strip u n
              db E)
    as [r [Hr ->]].
  rewrite Hr0 in Hr. injection Hr as <-.
  unfold SettingsManager.stored_accounts in Hn |- * at 2.
  rewrite Hr0 in *.
  rewrite (proj2 (SettingsFacts.py_in_false _ _) Hn). simpl.
  set (l := json_loads (row_accounts json r0)) in *.
  set (db1 := _update_field u FAccounts (l ++ [strip n])
                (_ensure_row u db)).
  assert (H1 : exists r1, db1 !! u = Some r1
                          /\ json_loads (row_accounts json r1)
                             = l ++ [strip n]).
  { unfold db1, SettingsManager._update_field.
    rewrite lookup_alter_eq, Hr0. simpl. eexists. split; [reflexivity|].
    simpl. apply json_roundtrip. }
  destruct H1 as [r1 [Hr1 Hl1]].
  destruct (SettingsFacts.remove_account_eq _ json_dumps json_loads
              u (strip n) db1) as [r2 [Hr2 ->]].
  rewrite (SettingsFacts.ensure_row_present _ _ _ _ _ Hr1) in *.
  rewrite Hr1 in Hr2. injection Hr2 as <-. rewrite Hl1. simpl.
  assert (Hin : In (strip n) (l ++ [strip n]))
    by (apply in_or_app; right; now left).
  rewrite (proj2 (SettingsFacts.py_in_iff _ _) Hin).
  rewrite (SettingsFacts.stored_accounts_update _ _ _ json_roundtrip
             _ _ _ _ Hr1).
  now apply list_remove_last.
Qed.

Lemma save_click_account (u item new_name : string)
    (db : gmap string row) :
  In item (stored_accounts u db) ->
  new_name <> item ->
  stored_accounts u
    (fst (Configuracoes.save_click (gmap string row) add_account
            remove_account u item new_name db))
  = let l := list_remove item (stored_accounts u db) in
    if Py.not_str (strip new_name) || py_in (strip new_name) l
    then l else l ++ [strip new_name].
Proof.
  intros Hin Hne. unfold Configuracoes.save_click.
  rewrite (proj2 (String.eqb_neq _ _) Hne). simpl.
  destruct (stored_accounts_row _ _ _ Hin) as [r [Hr Hs]].
  rewrite Hs in *.
  destruct (SettingsFacts.remove_account_eq _ json_dumps json_loads
              u item db) as [r' [Hr' ->]].
  rewrite (SettingsFacts.ensure_row_present _ _ _ _ _ Hr) in *.
  rewrite Hr in Hr'. injection Hr' as <-.
  rewrite (proj2 (SettingsFacts.py_in_iff _ _) Hin).
  set (l := list_remove item (json_loads (row_accounts json r))).
  set (db1 := _update_field u FAccounts l db).
  assert (H1 : exists r1, db1 !! u = Some r1
                          /\ json_loads (row_accounts json r1) = l).
  { unfold db1, SettingsManager._update_field.
    rewrite lookup_alter_eq, Hr. simpl. eexists. split; [reflexivity|].
    simpl. apply json_roundtrip. }
  destruct H1 as [r1 [Hr1 Hl1]].
  assert (Hs1 : stored_accounts u db1 = l).
  { unfold SettingsManager.stored_accounts. now rewrite Hr1. }
  destruct (Py.not_str (strip new_name)) eqn:Eb; simpl.
  - apply PyFacts.not_str_true in Eb.
    now rewrite (SettingsFacts.add_account_blank _ _ _ _ _ _ _ Eb).
  - apply PyFacts.not_str_false in Eb.
    destruct (SettingsFacts.add_account_eq _ json_dumps json_loads strip
                u new_name db1 Eb) as [r2 [Hr2 ->]].
    rewrite (SettingsFacts.ensure_row_present _ _ _ _ _ Hr1) in *.
    rewrite Hr1 in Hr2. injection Hr2 as <-. rewrite Hl1.
    destruct (py_in (strip new_name) l); simpl; [exact Hs1|].
    apply (SettingsFacts.stored_accounts_update _ _ _ json_roundtrip
             _ _ _ _ Hr1).
Qed.

Lemma remove_account_new_user (u n : string) (db : gmap string row) :
  db !! u = None ->
  stored_accounts u (fst (remove_account u n db))
  = (if py_in n DEFAULT_ACCOUNTS
     then list_remove n DEFAULT_ACCOUNTS else DEFAULT_ACCOUNTS)
  /\ stored_categories u (fst (remove_account u n db)) = DEFAULT_CATEGORIES.
Proof.
  intros H.
  destruct (SettingsFacts.remove_account_eq _ json_dumps json_loads u n db)
    as [r [Hr ->]].
  rewrite (SettingsFacts.ensure_row_absent _ _ _ _ H) in *.
  set (dc := DEFAULT_CATEGORIES) in *. set (da := DEFAULT_ACCOUNTS) in *.
  clearbody dc da.
  rewrite lookup_insert_eq in Hr. injection Hr as <-. simpl.
  rewrite !json_roundtrip.
  unfold SettingsManager.stored_accounts, SettingsManager.stored_categories,
    SettingsManager._update_field.
  destruct (py_in n da).
  - rewrite lookup_alter_eq, lookup_insert_eq. simpl.
    now rewrite !json_roundtrip.
  - rewrite lookup_insert_eq. simpl. now rewrite !json_roundtrip.
Qed.

(** X16. Adding a name twice is adding it once: the second call leaves
    the store as the first one left it, for categories and for accounts;
    and in a store that calls of this module built, the list then holds
    the stripped name exactly once (given that stripping twice is
    stripping once, and that the default categories are stripped
    already). *)
Theorem add_name_idempotent
    (ops : list op) (user name : string) (db : gmap string row) :
  fst (add_category user name (fst (add_category user name db)))
  = fst (add_category user name db)
  /\ fst (add_account user name (fst (add_account user name db)))
     = fst (add_account user name db)
  /\ (strip name <> "" ->
      count_occ string_dec
        (stored_categories user (fst (add_category user name (run ops))))
        (strip name) = 1%nat
      /\ count_occ string_dec
           (stored_accounts user (fst (add_account user name (run ops))))
           (strip name) = 1%nat).
Proof.
  split; [apply add_category_twice|]. split; [apply add_account_twice|].
  intros E. split; [now apply add_category_once | now apply add_account_once].
Qed.

(** X17. Adding a name that the list does not hold and then removing its
    stripped form gives back the list as [get_settings] showed it before,
    for categories and for accounts. *)
Theorem add_then_remove_restores
    (user name : string) (db : gmap string row) :
  strip name <> "" ->
  (~ In (strip name) (stored_categories user (fst (get_settings user db))) ->
   stored_categories user
     (fst (remove_category user (strip name)
             (fst (add_category user name db))))
   = stored_categories user (fst (get_settings user db)))
  /\ (~ In (strip name) (stored_accounts user (fst (get_settings user db))) ->
      stored_accounts user
        (fst (remove_account user (strip name)
                (fst (add_account user name db))))
      = stored_accounts user (fst (get_settings user db))).
Proof.
  intros E. split; intros H;
    [now apply remove_after_add_category | now apply remove_after_add_account].
Qed.

(** X18. Once the row of a user exists (after [get_settings]), the budget
    that [set_monthly_budget] writes, a number or null, is the budget that
    [get_monthly_budget] reads back, and the two lists of the user are
    not touched. *)
Theorem set_monthly_budget_then_get
    (user : string) (budget : option Q) (db : gmap string row) :
  let db1 := fst (get_settings user db) in
  let db2 := set_monthly_budget user budget db1 in
  get_monthly_budget user db2 = (db2, Ok budget)
  /\ stored_categories user db2 = stored_categories user db1
  /\ stored_accounts user db2 = stored_accounts user db1.
Proof.
  intros db1 db2.
  destruct (SettingsFacts.get_settings_ok _ json_dumps json_loads user db)
    as [r [Hr Hg]].
  assert (H1 : db1 !! user = Some r) by (unfold db1; now rewrite Hg).
  assert (H2 : db2 !! user
               = Some (mk_row json (row_categories json r)
                         (row_accounts json r) budget)).
  { unfold db2, SettingsManager.set_monthly_budget.
    now rewrite lookup_alter_eq, H1. }
  split; [|split].
  - unfold SettingsManager.get_monthly_budget.
    destruct (SettingsFacts.get_settings_ok _ json_dumps json_loads user db2)
      as [r2 [Hr2 ->]].
    rewrite (SettingsFacts.ensure_row_present _ _ _ _ _ H2) in *.
    rewrite H2 in Hr2. now injection Hr2 as <-.
  - unfold SettingsManager.stored_categories. now rewrite H1, H2.
  - unfold SettingsManager.stored_accounts. now rewrite H1, H2.
Qed.

(** X19. [get_settings] is idempotent: called again on the store it
    left, it returns the same settings and leaves the store as it is. *)
Theorem get_settings_idempotent (user : string) (db : gmap string row) :
  get_settings user (fst (get_settings user db)) = get_settings user db.
Proof.
  destruct (SettingsFacts.get_settings_ok _ json_dumps json_loads user db)
    as [r [Hr Hg]].
  rewrite Hg. simpl.
  destruct (SettingsFacts.get_settings_ok _ json_dumps json_loads user
              (_ensure_row user db)) as [r2 [Hr2 ->]].
  rewrite (SettingsFacts.ensure_row_present _ _ _ _ _ Hr) in *.
  rewrite Hr in Hr2. now injection Hr2 as <-.
Qed.

Lemma ensure_row_other (u v : string) (db : gmap string row) :
  u <> v -> _ensure_row u db !! v = db !! v.
Proof.
  intros H. unfold SettingsManager._ensure_row.
  destruct (db !! u); [reflexivity|]. now apply lookup_insert_ne.
Qed.

Lemma update_field_other (u v : string) (f : field) (l : list string)
    (db : gmap string row) :
  u <> v -> _update_field u f l db !! v = db !! v.
Proof.
  intros H. unfold SettingsManager._update_field. now apply lookup_alter_ne.
Qed.

(** X20. No call made for one user touches the row of another: after any
    operation of this module for user [u], the row of every other user,
    present or absent, is what it was. *)
Theorem settings_of_other_users_unaffected
    (db : gmap string row) (o : op) (v : string) :
  Configuracoes.op_user o <> v ->
  step db o !! v = db !! v.
Proof.
  intros H. destruct o as [u|u n|u n|u n|u n|u b]; simpl in *.
  - destruct (SettingsFacts.get_settings_ok _ json_dumps json_loads u db)
      as [r [_ ->]]. now apply ensure_row_other.
  - destruct (string_dec (strip n) "") as [E|E].
    + now rewrite (SettingsFacts.add_category_blank _ _ _ _ _ _ _ E).
    + destruct (SettingsFacts.add_category_eq _ json_dumps json_loads strip
                  u n db E) as [r [_ ->]].
      simpl. destruct (py_in _ _);
        rewrite ?update_field_other by exact H; now apply ensure_row_other.
  - destruct (SettingsFacts.remove_category_eq _ json_dumps json_loads
                u n db) as [r [_ ->]].
    simpl. destruct (py_in _ _);
      rewrite ?update_field_other by exact H; now apply ensure_row_other.
  - destruct (string_dec (strip n) "") as [E|E].
    + now rewrite (SettingsFacts.add_account_blank _ _ _ _ _ _ _ E).
    + destruct (SettingsFacts.add_account_eq _ json_dumps json_loads strip
                  u n db E) as [r [_ ->]].
      simpl. destruct (py_in _ _);
        rewrite ?update_field_other by exact H; now apply ensure_row_other.
  - destruct (SettingsFacts.remove_account_eq _ json_dumps json_loads
                u n db) as [r [_ ->]].
    simpl. destruct (py_in _ _);
      rewrite ?update_field_other by exact H; now apply ensure_row_other.
  - unfold SettingsManager.set_monthly_budget. now apply lookup_alter_ne.
Qed.

(** X21. The save button of the settings page, on an entry whose text
    was edited, removes the entry and adds the new text: the list becomes
    the old list without the entry, followed by the stripped new text,
    unless that text is blank or already in the rest of the list, in
    which case the entry is simply gone.  With the text unchanged the
    button does nothing. *)
Theorem save_click_renames
    (user item new_name : string) (db : gmap string row) :
  new_name <> item ->
  (In item (stored_categories user db) ->
   stored_categories user
     (fst (Configuracoes.save_click (gmap string row) add_category
             remove_category user item new_name db))
   = let l := list_remove item (stored_categories user db) in
     if Py.not_str (strip new_name) || py_in (strip new_name) l
     then l else l ++ [strip new_name])
  /\ (In item (stored_accounts user db) ->
      stored_accounts user
        (fst (Configuracoes.save_click (gmap string row) add_account
                remove_account user item new_name db))
      = let l := list_remove item (stored_accounts user db) in
        if Py.not_str (strip new_name) || py_in (strip new_name) l
        then l else l ++ [strip new_name])
  /\ Configuracoes.save_click (gmap string row) add_category
       remove_category user item item db = (db, Ok tt).
Proof.
  intros Hne. split; [|split].
  - intros H. now apply save_click_category.
  - intros H. now apply save_click_account.
  - unfold Configuracoes.save_click. now rewrite String.eqb_refl.
Qed.

(** X22. For a user who has no row yet, a removal is not without effect:
    it first stores the default row, so that afterwards the user holds
    the default categories (less the removed one, if it was a default)
    and the default accounts. *)
Theorem remove_for_new_user_stores_defaults
    (user name : string) (db : gmap string row) :
  db !! user = None ->
  (stored_categories user (fst (remove_category user name db))
   = (if py_in name DEFAULT_CATEGORIES
      then list_remove name DEFAULT_CATEGORIES else DEFAULT_CATEGORIES)
   /\ stored_accounts user (fst (remove_category user name db))
      = DEFAULT_ACCOUNTS)
  /\ (stored_accounts user (fst (remove_account user name db))
      = (if py_in name DEFAULT_ACCOUNTS
         then list_remove name DEFAULT_ACCOUNTS else DEFAULT_ACCOUNTS)
      /\ stored_categories user (fst (remove_account user name db))
         = DEFAULT_CATEGORIES).
Proof.
  intros H. split;
    [now apply remove_category_new_user | now apply remove_account_new_user].
Qed.

End WithJson.

(** X16 on the category ["Praia"], added twice with blanks around it. *)
Lemma add_name_idempotent_witness :
  let add :=
    add_category (list string) (fun l => l) (fun l => l) Py.ascii_strip in
  fst (add "u" " Praia " (fst (add "u" " Praia " (init_db (list string)))))
  = fst (add "u" " Praia " (init_db (list string))).
Proof.
  intros add.
  exact (proj1 (add_name_idempotent (list string) (fun l => l) (fun l => l)
                  Py.ascii_strip PyFacts.strip_idem
                  SettingsFacts.ascii_defaults_stripped
                  SettingsFacts.plain_roundtrip [] "u" " Praia "
                  (init_db (list string)))).
Defined.

(** X17 on a new user and the category ["Praia"]. *)
Lemma add_then_remove_restores_witness :
  stored_categories (list string) (fun l => l) "u"
    (fst (remove_category (list string) (fun l => l) (fun l => l) "u" "Praia"
            (fst (add_category (list string) (fun l => l) (fun l => l)
                    Py.ascii_strip "u" " Praia " (init_db (list string))))))
  = DEFAULT_CATEGORIES.
Proof.
  assert (E : Py.ascii_strip " Praia " <> "") by discriminate.
  assert (Hn : ~ In (Py.ascii_strip " Praia ")
                 (stored_categories (list string) (fun l => l) "u"
                    (fst (get_settings (list string) (fun l => l)
                            (fun l => l) "u" (init_db (list string)))))).
  { vm_compute. intros H.
    repeat (destruct H as [H|H]; [discriminate H|]). exact H. }
  exact (proj1 (add_then_remove_restores (list string) (fun l => l)
                  (fun l => l) Py.ascii_strip SettingsFacts.plain_roundtrip
                  "u" " Praia " (init_db (list string)) E) Hn).
Defined.

(** X20 on a category added for another user. *)
Lemma settings_of_other_users_unaffected_witness :
  step (list string) (fun l => l) (fun l => l) Py.ascii_strip
    (init_db (list string)) (OpAddCategory "u" "Praia") !! "v"
  = None.
Proof.
  assert (H : Configuracoes.op_user (OpAddCategory "u" "Praia") <> "v")
    by discriminate.
  exact (settings_of_other_users_unaffected (list string) (fun l => l)
           (fun l => l) Py.ascii_strip (init_db (list string))
           (OpAddCategory "u" "Praia") "v" H).
Defined.

(** X21 on a default category renamed to blanks: the entry is gone. *)
Lemma save_click_renames_witness :
  let db1 :=
    fst (get_settings (list string) (fun l => l) (fun l => l) "u"
           (init_db (list string))) in
  stored_categories (list string) (fun l => l) "u"
    (fst (Configuracoes.save_click (gmap string (settings_row (list string)))
            (add_category (list string) (fun l => l) (fun l => l)
               Py.ascii_strip)
            (remove_category (list string) (fun l => l) (fun l => l))
            "u" "Lazer" "  " db1))
  = ["Alimentação"; "Transporte"; "Hospedagem"; "Compras"; "Outros"].
Proof.
  intros db1.
  assert (Hne : "  " <> "Lazer") by discriminate.
  assert (Hin : In "Lazer"
                  (stored_categories (list string) (fun l => l) "u" db1)).
  { vm_compute. do 3 right. left. reflexivity. }
  rewrite (proj1 (save_click_renames (list string) (fun l => l) (fun l => l)
                    Py.ascii_strip SettingsFacts.plain_roundtrip "u" "Lazer"
                    "  " db1 Hne)
             Hin).
  reflexivity.
Defined.

(** X22 on an empty table. *)
Lemma remove_for_new_user_stores_defaults_witness :
  stored_categories (list string) (fun l => l) "u"
    (fst (remove_category (list string) (fun l => l) (fun l => l) "u" "Lazer"
            (init_db (list string))))
  = ["Alimentação"; "Transporte"; "Hospedagem"; "Compras"; "Outros"].
Proof.
  rewrite (proj1 (proj1 (remove_for_new_user_stores_defaults (list string)
                           (fun l => l) (fun l => l)
                           SettingsFacts.plain_roundtrip "u" "Lazer"
                           (init_db (list string)) eq_refl))).
  reflexivity.
Defined.

End SettingsExtras.
